(** * ModelSwitch: the versioned model registry and its prediction path

    A shallow embedding of [app/config.py], [app/metrics.py],
    [app/model_loader.py], [app/predict.py], [app/admin.py] and of the
    [/predict] handler and the startup hook of [app/main.py], with the
    event loop that runs the handlers.

    Python objects that the code mutates (the registry's two dicts, its
    active-version attribute, the Prometheus collectors) live in one process
    state that every function threads through; exceptions are values of an
    error monad that keeps the state reached at the [raise].  What the code
    reads from outside (the file system, the wall clock, the unpickled
    models) is an explicit [World] argument. *)

From Stdlib Require Import ZArith Ascii String List Floats.SpecFloat.
From stdpp Require Import gmap strings list fin_maps sorting pretty.

Local Open Scope string_scope.
Set Warnings "-register-all".

(** ** Python values *)

(** Python exceptions, as far as [except Exception] catches them (the
    instances of [Exception]): the class and [str(e)]. *)
Inductive exn_class :=
| FileNotFoundError
| IsADirectoryError
| NotADirectoryError
| RuntimeError
| ValueError
| TypeError
| OtherError (name : string).

Record exn := Exn { exn_type : exn_class; exn_str : string }.

Definition exn_class_eqb (a b : exn_class) : bool :=
  match a, b with
  | FileNotFoundError, FileNotFoundError
  | IsADirectoryError, IsADirectoryError
  | NotADirectoryError, NotADirectoryError
  | RuntimeError, RuntimeError
  | ValueError, ValueError
  | TypeError, TypeError => true
  | OtherError x, OtherError y => String.eqb x y
  | _, _ => false
  end.

(** [type(e).__name__] *)
Definition type_name (e : exn) : string :=
  match exn_type e with
  | FileNotFoundError => "FileNotFoundError"
  | IsADirectoryError => "IsADirectoryError"
  | NotADirectoryError => "NotADirectoryError"
  | RuntimeError => "RuntimeError"
  | ValueError => "ValueError"
  | TypeError => "TypeError"
  | OtherError name => name
  end.

(** The entries a feature list can hold.  A Python [float] is an IEEE-754
    double, classified by [spec_float]; a Python [int] is unbounded. *)
Inductive pyval :=
| PyInt (z : Z)
| PyFloat (f : spec_float)
| PyBool (b : bool)
| PyStr (s : string)
| PyNone.

(** What a model hands back: a scalar or a (nested) sequence. *)
Inductive pyobj :=
| PScalar (x : pyval)
| PList (l : list pyobj).

(** The raw return value of [model.predict]: a numpy array (which has
    [tolist]) or a plain Python object. *)
Inductive raw_output :=
| NdArray (contents : pyobj)
| Plain (contents : pyobj).

(** Python floats are IEEE-754 doubles: 53 bits of precision. *)
Definition float_mul : spec_float -> spec_float -> spec_float := SFmul 53 1024.
Definition float_div : spec_float -> spec_float -> spec_float := SFdiv 53 1024.

(** [float(z)] for an [int] literal of the source, which a product or a
    quotient with a float converts first. *)
Definition float_of_int (z : Z) : spec_float :=
  binary_normalize 53 1024 z 0 false.

(** [int(f)]: the float truncated towards zero; [None] for a NaN (where
    Python raises [ValueError]) and for an infinity ([OverflowError]). *)
Definition int_of_float (f : spec_float) : option Z :=
  match f with
  | S754_zero _ => Some 0%Z
  | S754_finite sign m e =>
      let magnitude := Z.shiftl (Z.pos m) e in
      Some (if sign then - magnitude else magnitude)%Z
  | S754_infinity _ | S754_nan => None
  end.

(** Seconds, as [time.time()] differences: floats. *)
Definition Time := spec_float.

Arguments float_mul : simpl never.
Arguments float_div : simpl never.
Arguments float_of_int : simpl never.

(** An unpickled model is opaque: all the code does with it is call
    [predict], which may raise. *)
Record Model := { predict : list pyval -> exn + raw_output }.

(** The object that [joblib.load] returns.  Every call allocates a new
    object; [oid] is the index of the call that made it, so that two loads of
    one file give two distinguishable artifacts. *)
Record Handle := { oid : nat; obj : Model }.

(** ** The world outside the process *)

Inductive Pickle :=
| Artifact (m : Model)
| Unreadable (e : exn).

(** Besides the files, the directories and the clock, the world says what
    [os.makedirs] fails with, if it does, on a path that is not there yet
    (a parent that is a regular file or not writable is not part of [files]
    and [dirs]). *)
Record World := {
  files : string -> option Pickle;        (* regular files, by path      *)
  dirs : string -> option (list string);  (* directories: [os.listdir]   *)
  load_seconds : Time;                    (* clock around [joblib.load]  *)
  predict_seconds : Time;                 (* clock around a prediction   *)
  makedirs_error : string -> option exn   (* [os.makedirs] on a new path *)
}.

(** [str(e)] of an [OSError] raised on [path], with the path quoted as
    [repr] quotes a plain name. *)
Definition strerror (errno : string) (path : string) : string :=
  errno ++ ": '" ++ path ++ "'".

Definition os_path_exists (w : World) (p : string) : bool :=
  match files w p, dirs w p with
  | None, None => false
  | _, _ => true
  end.

(** The world once the directory [name] has been made. *)
Definition with_directory (w : World) (name : string) : World :=
  {| files := files w;
     dirs := fun p => if String.eqb p name then Some [] else dirs w p;
     load_seconds := load_seconds w;
     predict_seconds := predict_seconds w;
     makedirs_error := makedirs_error w |}.

(** [os.makedirs(name, exist_ok=True)], with the world it leaves: a
    directory that is there is left alone, a regular file of that name makes
    [os.mkdir] raise [FileExistsError] (which [exist_ok] forgives for
    directories only), and a path that is not there is made unless the file
    system refuses. *)
Definition os_makedirs (w : World) (name : string) : exn + World :=
  match dirs w name with
  | Some _ => inr w
  | None =>
      match files w name with
      | Some _ =>
          inl (Exn (OtherError "FileExistsError")
                 (strerror "[Errno 17] File exists" name))
      | None =>
          match makedirs_error w name with
          | Some e => inl e
          | None => inr (with_directory w name)
          end
      end
  end.

(** ** Process state *)

Record Metrics := {
  MODEL_INFERENCE_LATENCY : list (string * Time);
  MODEL_PREDICTION_REQUESTS : gmap (string * string) nat;
  MODEL_PREDICTION_ERRORS : gmap (string * string) nat;
  MODEL_VERSION_ACTIVE : gmap string Z;
  MODEL_LOAD_TIME : list (string * Time)
}.

Record ModelRegistry := {
  _models : gmap string Handle;
  _active_version : string;
  _load_times : gmap string Time
}.

Record Process := {
  model_registry : ModelRegistry;
  metrics : Metrics;
  joblib_calls : list string   (* the paths [joblib.load] was called on *)
}.

(** ** Computations that may raise *)

Definition Py (A : Type) : Type := Process -> (exn + A) * Process.

Definition ret {A} (a : A) : Py A := fun s => (inr a, s).

Definition raise {A} (e : exn) : Py A := fun s => (inl e, s).

Definition bind {A B} (m : Py A) (k : A -> Py B) : Py B :=
  fun s =>
    match m s with
    | (inr a, s') => k a s'
    | (inl e, s') => (inl e, s')
    end.

(** [try: m  except Exception as e: h e] *)
Definition try_except {A} (m : Py A) (h : exn -> Py A) : Py A :=
  fun s =>
    match m s with
    | (inr a, s') => (inr a, s')
    | (inl e, s') => h e s'
    end.

Definition gets {A} (f : Process -> A) : Py A := fun s => (inr (f s), s).

Definition modify (f : Process -> Process) : Py unit := fun s => (inr tt, f s).

Declare Scope py_scope.
Delimit Scope py_scope with py.
Notation "x <- m ;; k" := (bind m (fun x => k))
  (at level 100, m at next level, right associativity) : py_scope.
Notation "m ;;; k" := (bind m (fun _ => k))
  (at level 100, right associativity) : py_scope.
Local Open Scope py_scope.

Definition result {A} (r : (exn + A) * Process) : exn + A := fst r.
Definition after {A} (r : (exn + A) * Process) : Process := snd r.

(** Python truthiness of an [Optional[str]]: [None] and [""] are falsy. *)
Definition truthy (version : option string) : bool :=
  match version with
  | None => false
  | Some v => negb (String.eqb v "")
  end.

(** [version or default] *)
Definition py_or (version : option string) (default : string) : string :=
  match version with
  | Some v => if truthy version then v else default
  | None => default
  end.

(** ** app/config.py *)

Record Settings := {
  models_dir : string;
  default_version : string
}.

Definition settings : Settings :=
  {| models_dir := "models"; default_version := "v1" |}.

Definition startswith_sep (s : string) : bool :=
  match s with
  | String c _ => Ascii.eqb c "/"%char
  | EmptyString => false
  end.

Fixpoint endswith_sep (s : string) : bool :=
  match s with
  | EmptyString => false
  | String c EmptyString => Ascii.eqb c "/"%char
  | String _ rest => endswith_sep rest
  end.

(** One step of [posixpath.join]. *)
Definition join2 (path b : string) : string :=
  if startswith_sep b || String.eqb path "" then b
  else if endswith_sep path then path ++ b
  else path ++ "/" ++ b.

Definition os_path_join (a : string) (p : list string) : string :=
  fold_left join2 p a.

Definition get_model_path (cfg : Settings) (version : string) : string :=
  os_path_join (models_dir cfg) [version; "model.pkl"].

Definition str_le (a b : string) : Prop := String.leb a b = true.

#[local] Instance str_le_dec : RelDecision str_le :=
  fun a b => decide (String.leb a b = true).

(** [sorted(versions)] *)
Definition sorted (l : list string) : list string := merge_sort str_le l.

Definition os_listdir (w : World) (p : string) : exn + list string :=
  match dirs w p with
  | Some entries => inr entries
  | None =>
      match files w p with
      | Some _ =>
          inl (Exn NotADirectoryError (strerror "[Errno 20] Not a directory" p))
      | None =>
          inl (Exn FileNotFoundError
                 (strerror "[Errno 2] No such file or directory" p))
      end
  end.

Definition get_available_versions (cfg : Settings) (w : World)
  : exn + list string :=
  if negb (os_path_exists w (models_dir cfg)) then inr []
  else
    match os_listdir w (models_dir cfg) with
    | inl e => inl e
    | inr items =>
        inr (sorted
               (filter (fun item =>
                          os_path_exists w (get_model_path cfg item) = true)
                       items))
    end.

(** ** app/metrics.py *)

Definition update_metrics (f : Metrics -> Metrics) : Py unit :=
  modify (fun s =>
    {| model_registry := model_registry s;
       metrics := f (metrics s);
       joblib_calls := joblib_calls s |}).

Definition inc (k : string * string) (c : gmap (string * string) nat)
  : gmap (string * string) nat :=
  <[k := S (default 0 (c !! k))]> c.

Definition record_inference_latency (version : string) (duration : Time)
  : Py unit :=
  update_metrics (fun m =>
    {| MODEL_INFERENCE_LATENCY :=
         MODEL_INFERENCE_LATENCY m ++ [(version, duration)];
       MODEL_PREDICTION_REQUESTS := MODEL_PREDICTION_REQUESTS m;
       MODEL_PREDICTION_ERRORS := MODEL_PREDICTION_ERRORS m;
       MODEL_VERSION_ACTIVE := MODEL_VERSION_ACTIVE m;
       MODEL_LOAD_TIME := MODEL_LOAD_TIME m |}).

Definition record_prediction_request (version status : string) : Py unit :=
  update_metrics (fun m =>
    {| MODEL_INFERENCE_LATENCY := MODEL_INFERENCE_LATENCY m;
       MODEL_PREDICTION_REQUESTS :=
         inc (version, status) (MODEL_PREDICTION_REQUESTS m);
       MODEL_PREDICTION_ERRORS := MODEL_PREDICTION_ERRORS m;
       MODEL_VERSION_ACTIVE := MODEL_VERSION_ACTIVE m;
       MODEL_LOAD_TIME := MODEL_LOAD_TIME m |}).

Definition record_prediction_error (version error_type : string) : Py unit :=
  update_metrics (fun m =>
    {| MODEL_INFERENCE_LATENCY := MODEL_INFERENCE_LATENCY m;
       MODEL_PREDICTION_REQUESTS := MODEL_PREDICTION_REQUESTS m;
       MODEL_PREDICTION_ERRORS :=
         inc (version, error_type) (MODEL_PREDICTION_ERRORS m);
       MODEL_VERSION_ACTIVE := MODEL_VERSION_ACTIVE m;
       MODEL_LOAD_TIME := MODEL_LOAD_TIME m |}).

(** The gauge update: every common version name to 0, then [version] to 1. *)
Definition metrics_set_active_version (version : string) : Py unit :=
  update_metrics (fun m =>
    {| MODEL_INFERENCE_LATENCY := MODEL_INFERENCE_LATENCY m;
       MODEL_PREDICTION_REQUESTS := MODEL_PREDICTION_REQUESTS m;
       MODEL_PREDICTION_ERRORS := MODEL_PREDICTION_ERRORS m;
       MODEL_VERSION_ACTIVE :=
         <[version := 1%Z]>
           (fold_left (fun g v => <[v := 0%Z]> g)
                      ["v1"; "v2"; "v3"; "v4"; "v5"]
                      (MODEL_VERSION_ACTIVE m));
       MODEL_LOAD_TIME := MODEL_LOAD_TIME m |}).

Definition record_model_load_time (version : string) (duration : Time)
  : Py unit :=
  update_metrics (fun m =>
    {| MODEL_INFERENCE_LATENCY := MODEL_INFERENCE_LATENCY m;
       MODEL_PREDICTION_REQUESTS := MODEL_PREDICTION_REQUESTS m;
       MODEL_PREDICTION_ERRORS := MODEL_PREDICTION_ERRORS m;
       MODEL_VERSION_ACTIVE := MODEL_VERSION_ACTIVE m;
       MODEL_LOAD_TIME := MODEL_LOAD_TIME m ++ [(version, duration)] |}).

(** ** app/model_loader.py *)

Definition update_registry (f : ModelRegistry -> ModelRegistry) : Py unit :=
  modify (fun s =>
    {| model_registry := f (model_registry s);
       metrics := metrics s;
       joblib_calls := joblib_calls s |}).

(** [joblib.load(path)]: the call is logged, then the file decides. *)
Definition joblib_load (w : World) (path : string) : Py Handle :=
  n <- gets (fun s => length (joblib_calls s));;
  modify (fun s =>
    {| model_registry := model_registry s;
       metrics := metrics s;
       joblib_calls := joblib_calls s ++ [path] |});;;
  match files w path with
  | Some (Artifact m) => ret {| oid := n; obj := m |}
  | Some (Unreadable e) => raise e
  | None =>
      match dirs w path with
      | Some _ =>
          raise (Exn IsADirectoryError
                   (strerror "[Errno 21] Is a directory" path))
      | None =>
          raise (Exn FileNotFoundError
                   (strerror "[Errno 2] No such file or directory" path))
      end
  end.

Module Registry.

(** [ModelRegistry.__init__] followed by nothing else: the state of the
    process once the module-level [model_registry] exists. *)
Definition __init__ (cfg : Settings) : Process :=
  after
    (metrics_set_active_version (default_version cfg)
       {| model_registry :=
            {| _models := ∅;
               _active_version := default_version cfg;
               _load_times := ∅ |};
          metrics :=
            {| MODEL_INFERENCE_LATENCY := [];
               MODEL_PREDICTION_REQUESTS := ∅;
               MODEL_PREDICTION_ERRORS := ∅;
               MODEL_VERSION_ACTIVE := ∅;
               MODEL_LOAD_TIME := [] |};
          joblib_calls := [] |}).

Definition _load_model (cfg : Settings) (w : World) (version : string)
  : Py unit :=
  let model_path := get_model_path cfg version in
  if negb (os_path_exists w model_path) then
    raise (Exn FileNotFoundError ("Model not found: " ++ model_path))
  else
    try_except
      (model <- joblib_load w model_path;;
       update_registry (fun r =>
         {| _models := <[version := model]> (_models r);
            _active_version := _active_version r;
            _load_times := _load_times r |});;;
       update_registry (fun r =>
         {| _models := _models r;
            _active_version := _active_version r;
            _load_times := <[version := load_seconds w]> (_load_times r) |});;;
       record_model_load_time version (load_seconds w))
      (fun e =>
         raise (Exn RuntimeError
                  ("Failed to load model " ++ version ++ ": " ++ exn_str e))).

Definition get_model (cfg : Settings) (w : World) (version : option string)
  : Py Handle :=
  active <- gets (fun s => _active_version (model_registry s));;
  let version := py_or version active in
  cached <- gets (fun s => _models (model_registry s) !! version);;
  (match cached with
   | None => _load_model cfg w version
   | Some _ => ret tt
   end);;;
  entry <- gets (fun s => _models (model_registry s) !! version);;
  match entry with
  | Some model => ret model
  | None => raise (Exn (OtherError "KeyError") version)
  end.

Definition set_active_version (cfg : Settings) (w : World) (version : string)
  : Py bool :=
  let model_path := get_model_path cfg version in
  if negb (os_path_exists w model_path) then ret false
  else
    update_registry (fun r =>
      {| _models := _models r;
         _active_version := version;
         _load_times := _load_times r |});;;
    metrics_set_active_version version;;;
    ret true.

Definition get_active_version : Py string :=
  gets (fun s => _active_version (model_registry s)).

Definition is_version_loaded (version : string) : Py bool :=
  gets (fun s => bool_decide (is_Some (_models (model_registry s) !! version))).

Definition get_load_time (version : string) : Py (option Time) :=
  gets (fun s => _load_times (model_registry s) !! version).

Definition clear_cache (version : option string) : Py unit :=
  if truthy version then
    let v := default "" version in
    update_registry (fun r =>
      {| _models := delete v (_models r);
         _active_version := _active_version r;
         _load_times := _load_times r |});;;
    update_registry (fun r =>
      {| _models := _models r;
         _active_version := _active_version r;
         _load_times := delete v (_load_times r) |})
  else
    update_registry (fun r =>
      {| _models := ∅;
         _active_version := _active_version r;
         _load_times := _load_times r |});;;
    update_registry (fun r =>
      {| _models := _models r;
         _active_version := _active_version r;
         _load_times := ∅ |}).

End Registry.

(** ** app/predict.py *)

(** The request as the functions receive it (the repository's tests hand
    them raw lists); what the schema library does to a request body before
    that is the transport layer's. *)
Record PredictionRequest := {
  features : list pyval;
  version : option string
}.

(** A number as the response schema stores it. *)
Inductive number :=
| AsInt (z : Z)
| AsFloat (f : spec_float).

(** [Union[int, float, List[Union[int, float]]]] *)
Inductive prediction_value :=
| Number (n : number)
| Numbers (l : list number).

Record PredictionResponse := {
  prediction : prediction_value;
  model_version : string;
  latency_ms : Time
}.

(** [isinstance(feature, (int, float))]; [bool] is a subclass of [int]. *)
Definition isinstance_int_float (x : pyval) : bool :=
  match x with
  | PyInt _ | PyFloat _ | PyBool _ => true
  | PyStr _ | PyNone => false
  end.

(** numpy evaluates [isnan] and [isinf] after converting the argument to an
    array.  A Python [int] converts to a 64-bit integer array when it fits
    one ([int64], else [uint64]); outside that range, as for a [str] or
    [None], the array has dtype [object], for which the two functions have
    no loop: they raise [TypeError]. *)
Definition fits_numpy_integer (z : Z) : bool :=
  ((- 2 ^ 63 <=? z) && (z <? 2 ^ 64))%Z.

Definition ufunc_not_supported (name : string) : exn :=
  Exn TypeError ("ufunc '" ++ name ++ "' not supported for the input types").

Definition np_isnan (x : pyval) : exn + bool :=
  match x with
  | PyFloat S754_nan => inr true
  | PyFloat _ => inr false
  | PyInt z =>
      if fits_numpy_integer z then inr false
      else inl (ufunc_not_supported "isnan")
  | PyBool _ => inr false
  | PyStr _ | PyNone => inl (ufunc_not_supported "isnan")
  end.

Definition np_isinf (x : pyval) : exn + bool :=
  match x with
  | PyFloat (S754_infinity _) => inr true
  | PyFloat _ => inr false
  | PyInt z =>
      if fits_numpy_integer z then inr false
      else inl (ufunc_not_supported "isinf")
  | PyBool _ => inr false
  | PyStr _ | PyNone => inl (ufunc_not_supported "isinf")
  end.

(** The condition of the loop body, with the short-circuit order of [or]:
    [not isinstance(..) or np.isnan(..) or np.isinf(..)]. *)
Definition feature_rejected (feature : pyval) : exn + bool :=
  if negb (isinstance_int_float feature) then inr true
  else
    match np_isnan feature with
    | inl e => inl e
    | inr true => inr true
    | inr false => np_isinf feature
    end.

Fixpoint validate_loop (features : list pyval) : exn + bool :=
  match features with
  | [] => inr true
  | feature :: rest =>
      match feature_rejected feature with
      | inl e => inl e
      | inr true => inr false
      | inr false => validate_loop rest
      end
  end.

Definition validate_features (features : list pyval) : exn + bool :=
  match features with
  | [] => inr false
  | _ => validate_loop features
  end.

(** [len(prediction)] *)
Definition py_len (p : pyobj) : exn + nat :=
  match p with
  | PList l => inr (length l)
  | PScalar (PyStr s) => inr (String.length s)
  | PScalar _ => inl (Exn TypeError "object has no len()")
  end.

(** [prediction[0]] *)
Definition py_getitem0 (p : pyobj) : exn + pyobj :=
  match p with
  | PList (x :: _) => inr x
  | PList [] => inl (Exn (OtherError "IndexError") "list index out of range")
  | PScalar (PyStr s) => inr (PScalar (PyStr (substring 0 1 s)))
  | PScalar _ => inl (Exn TypeError "object is not subscriptable")
  end.

(** The two statements under "Handle different prediction formats". *)
Definition tolist_if_any (raw : raw_output) : pyobj :=
  match raw with
  | NdArray contents => contents      (* prediction.tolist() *)
  | Plain contents => contents
  end.

Definition normalize_prediction (raw : raw_output) : exn + pyobj :=
  let prediction := tolist_if_any raw in
  match py_len prediction with
  | inl e => inl e
  | inr n => if Nat.eqb n 1 then py_getitem0 prediction else inr prediction
  end.

(** *** Numerals

    How the interpreter reads a [str] as a number, [None] where [int(s)]
    or [float(s)] raises [ValueError].  Strings are taken as ASCII text. *)

(** Whitespace that [int] and [float] skip at both ends. *)
Definition is_space (c : ascii) : bool :=
  let n := N_of_ascii c in ((9 <=? n) && (n <=? 13) || (n =? 32))%N.

Definition digit_value (c : ascii) : option Z :=
  let n := Z.of_N (N_of_ascii c) in
  if ((48 <=? n) && (n <=? 57))%Z then Some (n - 48)%Z else None.

Fixpoint lstrip (s : list ascii) : list ascii :=
  match s with
  | c :: rest => if is_space c then lstrip rest else s
  | [] => []
  end.

Definition strip (s : list ascii) : list ascii :=
  rev (lstrip (rev (lstrip s))).

(** A run of digits, where a single underscore may stand between two
    digits: the number read (on top of [acc]), how many digits it took, and
    what follows the run. *)
Fixpoint digit_run (s : list ascii) (acc : Z) (n : nat)
  : Z * nat * list ascii :=
  match s with
  | c :: rest =>
      match digit_value c with
      | Some d => digit_run rest (10 * acc + d)%Z (S n)
      | None =>
          match n, rest with
          | S _, c' :: rest' =>
              match Ascii.eqb c "_", digit_value c' with
              | true, Some d => digit_run rest' (10 * acc + d)%Z (S n)
              | _, _ => (acc, n, s)
              end
          | _, _ => (acc, n, s)
          end
      end
  | [] => (acc, n, [])
  end.

Definition signed (s : list ascii) : bool * list ascii :=
  match s with
  | c :: rest =>
      if Ascii.eqb c "-" then (true, rest)
      else if Ascii.eqb c "+" then (false, rest)
      else (false, s)
  | [] => (false, [])
  end.

(** [int(s)]: an optional sign and a run of digits, at most 4300 of them
    (the interpreter's limit for decimal strings). *)
Definition int_of_str (s : string) : option Z :=
  let (negative, body) := signed (lstrip (list_ascii_of_string s)) in
  match digit_run body 0 0 with
  | (_, O, _) => None
  | (z, n, rest) =>
      match lstrip rest with
      | [] => if (n <=? 4300)%nat then Some (if negative then - z else z)%Z
              else None
      | _ => None
      end
  end.

Definition lower (c : ascii) : ascii :=
  let n := N_of_ascii c in
  if ((65 <=? n) && (n <=? 90))%N then ascii_of_N (n + 32) else c.

(** The double nearest to [m * 10 ^ e10], ties to even.  For a negative
    exponent the quotient is taken with 64 bits to spare and a sticky bit
    for what is left, so that one rounding decides. *)
Definition float_of_decimal (negative : bool) (m e10 : Z) : spec_float :=
  let sign z := (if negative then - z else z)%Z in
  if (m =? 0)%Z then S754_zero negative
  else if (0 <=? e10)%Z then
    binary_normalize 53 1024 (sign (m * 10 ^ e10)%Z) 0 negative
  else
    let d := (10 ^ (- e10))%Z in
    let n := (Z.log2 d + 64)%Z in
    let q := (m * 2 ^ n / d)%Z in
    let sticky := (if (m * 2 ^ n) mod d =? 0 then 0 else 1)%Z in
    binary_normalize 53 1024 (sign (2 * q + sticky)%Z) (- (n + 1)) negative.

(** [float(s)]: [inf], [infinity] and [nan] in any case, or digits with an
    optional point and an optional exponent; a value too large is an
    infinity, one too small a zero. *)
Definition float_of_str (s : string) : option spec_float :=
  let (negative, body) := signed (strip (list_ascii_of_string s)) in
  let word := string_of_list_ascii (map lower body) in
  if String.eqb word "inf" || String.eqb word "infinity"
  then Some (S754_infinity negative)
  else if String.eqb word "nan" then Some S754_nan
  else
    let '(i, ni, rest) := digit_run body 0 0 in
    let '(m, nf, rest) :=
      match rest with
      | c :: frac => if Ascii.eqb c "." then digit_run frac i 0
                     else (i, 0, rest)
      | [] => (i, 0, rest)
      end in
    if (ni + nf =? 0)%nat then None
    else
      match rest with
      | [] => Some (float_of_decimal negative m (- Z.of_nat nf))
      | c :: exponent =>
          if Ascii.eqb (lower c) "e" then
            let (eneg, digs) := signed exponent in
            match digit_run digs 0 0 with
            | (_, O, _) => None
            | (x, _, []) =>
                Some (float_of_decimal negative m
                        ((if eneg then - x else x) - Z.of_nat nf))
            | _ => None
            end
          else None
      end.

(** *** The response constructor

    [PredictionResponse(...)] validates its fields.  The schema library is
    pydantic in its first major version (app/config.py imports
    [BaseSettings] from it, which later versions do not have): a field of a
    [Union] type is given to the members in the order they are written and
    takes the first that accepts the value; the [int] member accepts an
    [int] as it is and otherwise whatever [int(v)] converts (a float is
    truncated; a NaN, an infinity and a string that is no integer are left
    to the next member), the [float] member likewise with [float(v)], the
    [List] member a list whose entries the inner [Union] accepts; [None] is
    refused before the members are asked.  [model_version] is a [str] and
    [latency_ms] a [float] already, and are kept. *)

Inductive field_error :=
| IntegerError
| FloatError
| ListError
| NoneIsNotAllowedError.

(** [Union[int, float]] on one value. *)
Definition validate_number (v : pyval)
  : list field_error + number :=
  match v with
  | PyNone => inl [NoneIsNotAllowedError]
  | PyInt z => inr (AsInt z)
  | PyBool b => inr (AsInt (Z.b2z b))            (* int(True) is 1 *)
  | PyFloat f =>
      match int_of_float f with
      | Some z => inr (AsInt z)
      | None => inr (AsFloat f)                  (* a NaN or an infinity *)
      end
  | PyStr s =>
      (* [int] is not tried on a string of more than 4300 characters *)
      match (if (4300 <? String.length s)%nat then None else int_of_str s) with
      | Some z => inr (AsInt z)
      | None =>
          match float_of_str s with
          | Some f => inr (AsFloat f)
          | None => inl [IntegerError; FloatError]
          end
      end
  end.

(** The entries of a list, each at its index: the validated entries, or
    the errors with the index they were found at. *)
Fixpoint validate_entries (i : nat) (l : list pyobj)
  : list (list nat * field_error) * list number :=
  match l with
  | [] => ([], [])
  | x :: rest =>
      let (errors, values) := validate_entries (S i) rest in
      match x with
      | PScalar v =>
          match validate_number v with
          | inr n => (errors, n :: values)
          | inl es => ((map (pair [i]) es ++ errors)%list, values)
          end
      | PList _ =>
          ((map (pair [i]) [IntegerError; FloatError] ++ errors)%list, values)
      end
  end.

(** The [prediction] field.  Each error comes with its place: [[]] for the
    field itself, [[i]] for the entry [i] of a list. *)
Definition validate_prediction (p : pyobj)
  : list (list nat * field_error) + prediction_value :=
  match p with
  | PScalar PyNone => inl [([], NoneIsNotAllowedError)]
  | PScalar v =>
      match validate_number v with
      | inr n => inr (Number n)
      | inl es => inl (map (pair []) (es ++ [ListError])%list)
      end
  | PList l =>
      match validate_entries 0 l with
      | ([], values) => inr (Numbers values)
      | (errors, _) =>
          inl (([], IntegerError) :: ([], FloatError) :: errors)
      end
  end.

(** [str(e)] of the library's [ValidationError]. *)
Definition newline : string := String "010"%char "".

Definition display_error (e : list nat * field_error) : string :=
  fold_left (fun loc i => loc ++ " -> " ++ pretty i) (fst e) "prediction"
  ++ newline ++ "  "
  ++ match snd e with
     | IntegerError => "value is not a valid integer (type=type_error.integer)"
     | FloatError => "value is not a valid float (type=type_error.float)"
     | ListError => "value is not a valid list (type=type_error.list)"
     | NoneIsNotAllowedError =>
         "none is not an allowed value (type=type_error.none.not_allowed)"
     end.

Definition ValidationError (errors : list (list nat * field_error)) : exn :=
  Exn (OtherError "ValidationError")
      (pretty (length errors) ++ " validation error"
       ++ (if Nat.eqb (length errors) 1 then "" else "s")
       ++ " for PredictionResponse"
       ++ fold_right (fun e rest => newline ++ display_error e ++ rest)
                     "" errors).

(** [PredictionResponse(prediction=..., model_version=..., latency_ms=...)] *)
Definition new_PredictionResponse (prediction : pyobj)
  (model_version : string) (latency_ms : Time) : exn + PredictionResponse :=
  match validate_prediction prediction with
  | inl errors => inl (ValidationError errors)
  | inr value =>
      inr {| prediction := value;
             model_version := model_version;
             latency_ms := latency_ms |}
  end.

Definition lift {A} (r : exn + A) : Py A :=
  match r with
  | inl e => raise e
  | inr a => ret a
  end.

Definition make_prediction (cfg : Settings) (w : World)
  (request : PredictionRequest) : Py PredictionResponse :=
  active <- Registry.get_active_version;;
  let version := py_or (version request) active in
  try_except
    (model <- Registry.get_model cfg w (Some version);;
     raw <- lift (predict (obj model) (features request));;
     prediction <- lift (normalize_prediction raw);;
     let latency_ms := float_mul (predict_seconds w) (float_of_int 1000) in
     record_inference_latency version
       (float_div latency_ms (float_of_int 1000));;;
     record_prediction_request version "success";;;
     lift (new_PredictionResponse prediction version latency_ms))
    (fun e =>
       if exn_class_eqb (exn_type e) FileNotFoundError then
         record_prediction_error version "model_not_found";;;
         raise (Exn ValueError ("Model version '" ++ version ++ "' not found"))
       else
         record_prediction_error version (type_name e);;;
         raise (Exn RuntimeError ("Prediction failed: " ++ exn_str e))).

Definition predict_with_validation (cfg : Settings) (w : World)
  (request : PredictionRequest) : Py PredictionResponse :=
  valid <- lift (validate_features (features request));;
  if negb valid then raise (Exn ValueError "Invalid features provided")
  else make_prediction cfg w request.

(** ** app/admin.py *)

Module Admin.

(** The three f-string messages of [set_active_version], kept structured:
    "Version '{version}' not found. Available versions: {...}",
    "Successfully switched to version '{version}'" and
    "Failed to switch to version '{version}'". *)
Inductive message :=
| NotFound (version : string) (available_versions : list string)
| Switched (version : string)
| FailedToSwitch (version : string).

Record VersionResponse := {
  success : bool;
  message_of : message;
  active_version : string
}.

Record HealthResponse := {
  status : string;
  health_active_version : string;
  available_versions : list string;
  models_loaded : nat
}.

Definition set_active_version (cfg : Settings) (w : World) (version : string)
  : Py VersionResponse :=
  available_versions <- lift (get_available_versions cfg w);;
  if negb (bool_decide (version ∈ available_versions)) then
    active <- Registry.get_active_version;;
    ret {| success := false;
           message_of := NotFound version available_versions;
           active_version := active |}
  else
    ok <- Registry.set_active_version cfg w version;;
    if ok : bool then
      ret {| success := true;
             message_of := Switched version;
             active_version := version |}
    else
      active <- Registry.get_active_version;;
      ret {| success := false;
             message_of := FailedToSwitch version;
             active_version := active |}.

Definition get_health_status (cfg : Settings) (w : World)
  : Py HealthResponse :=
  active_version <- Registry.get_active_version;;
  available_versions <- lift (get_available_versions cfg w);;
  loaded <- gets (fun s =>
    length (filter (fun v => is_Some (_models (model_registry s) !! v))
                   available_versions));;
  let status :=
    match available_versions with
    | [] => "no_models"
    | _ => if bool_decide (active_version ∈ available_versions)
           then "healthy" else "no_active_model"
    end in
  ret {| status := status;
         health_active_version := active_version;
         available_versions := available_versions;
         models_loaded := loaded |}.

(** Returns the [cleared_version] entry of the result dict; [success] is
    always [True]. *)
Definition clear_model_cache (version : option string)
  : Py (option string) :=
  Registry.clear_cache version;;;
  ret version.

End Admin.

(** ** app/main.py *)

Module Main.

Inductive http_response :=
| OK (body : PredictionResponse)
| HTTPException (status_code : nat) (detail : string).

(** [POST /predict].  An exception that is neither a [ValueError] nor a
    [RuntimeError] leaves the handler. *)
Definition predict (cfg : Settings) (w : World) (request : PredictionRequest)
  : Py http_response :=
  try_except
    (body <- predict_with_validation cfg w request;; ret (OK body))
    (fun e =>
       match exn_type e with
       | ValueError => ret (HTTPException 400 (exn_str e))
       | RuntimeError => ret (HTTPException 500 (exn_str e))
       | _ => raise e
       end).

(** The startup hook: it makes sure the models directory is there, which
    may raise, and then tries to load the default model in the world that
    leaves; a missing pickle is expected and swallowed, any other failure
    propagates. *)
Definition startup_event (cfg : Settings) (w : World) : Py unit :=
  w' <- lift (os_makedirs w (models_dir cfg));;
  try_except
    (Registry.get_model cfg w' None;;; ret tt)
    (fun e =>
       if exn_class_eqb (exn_type e) FileNotFoundError then ret tt
       else raise e).

End Main.

(** ** Requests, one after another

    The operations of the registry, the prediction path and the handlers,
    as one type of calls.  Each call sees the world as it is when it
    runs. *)

Inductive call :=
| GetModel (version : option string)
| SetActiveVersion (version : string)
| GetActiveVersion
| IsVersionLoaded (version : string)
| GetLoadTime (version : string)
| ClearCache (version : option string)
| Predict (request : PredictionRequest)
| PostPredict (request : PredictionRequest)
| AdminSetActiveVersion (version : string)
| AdminClearCache (version : option string)
| Health
| Startup.

Inductive value :=
| VHandle (h : Handle)
| VBool (b : bool)
| VStr (s : string)
| VTime (t : option Time)
| VNone
| VResponse (r : PredictionResponse)
| VHttp (r : Main.http_response)
| VVersion (r : Admin.VersionResponse)
| VCleared (v : option string)
| VHealth (r : Admin.HealthResponse).

Definition fmap_py {A B} (f : A -> B) (m : Py A) : Py B :=
  a <- m;; ret (f a).

Definition serve (cfg : Settings) (w : World) (c : call) : Py value :=
  match c with
  | GetModel version => fmap_py VHandle (Registry.get_model cfg w version)
  | SetActiveVersion version =>
      fmap_py VBool (Registry.set_active_version cfg w version)
  | GetActiveVersion => fmap_py VStr Registry.get_active_version
  | IsVersionLoaded version => fmap_py VBool (Registry.is_version_loaded version)
  | GetLoadTime version => fmap_py VTime (Registry.get_load_time version)
  | ClearCache version => fmap_py (fun _ => VNone) (Registry.clear_cache version)
  | Predict request => fmap_py VResponse (predict_with_validation cfg w request)
  | PostPredict request => fmap_py VHttp (Main.predict cfg w request)
  | AdminSetActiveVersion version =>
      fmap_py VVersion (Admin.set_active_version cfg w version)
  | AdminClearCache version => fmap_py VCleared (Admin.clear_model_cache version)
  | Health => fmap_py VHealth (Admin.get_health_status cfg w)
  | Startup => fmap_py (fun _ => VNone) (Main.startup_event cfg w)
  end.

(** Serving a sequence of requests: the outcomes, in order, and the final
    state.  A request that raises leaves the state it reached. *)
Fixpoint serve_all (cfg : Settings) (reqs : list (World * call)) (s : Process)
  : list (exn + value) * Process :=
  match reqs with
  | [] => ([], s)
  | (w, c) :: rest =>
      let (r, s') := serve cfg w c s in
      let (rs, s'') := serve_all cfg rest s' in
      (r :: rs, s'')
  end.

(** A request that switched the active version. *)
Definition switched (c : call) (r : exn + value) : bool :=
  match c, r with
  | SetActiveVersion _, inr (VBool true) => true
  | AdminSetActiveVersion _, inr (VVersion resp) => Admin.success resp
  | _, _ => false
  end.

(** The states the process can be in: those that some sequence of requests
    produces from the freshly constructed registry. *)
Definition reachable (cfg : Settings) (s : Process) : Prop :=
  exists reqs, snd (serve_all cfg reqs (Registry.__init__ cfg)) = s.

(** ** Requests in flight together: the event loop

    The server runs every request as a task of one asyncio event loop.  A
    task is a coroutine: when the loop turns to it, it runs up to its next
    suspension point (an [await] on something that is not finished yet) or
    to its end, and only then does the loop turn to another ready task.
    Tasks that are ready together are run in an order the code does not
    choose. *)

Inductive coroutine :=
| Finish (block : World -> Py value)
| Suspend (block : World -> Py unit) (rest : coroutine).

Record Task := { caller : nat; body : coroutine }.

Record Loop := {
  ready : list Task;                       (* tasks waiting for a turn   *)
  finished : list (nat * (exn + value));   (* callers and their outcomes *)
  process : Process
}.

(** One turn of the loop: the ready task at position [i] runs in the world
    as it is then.  A task that suspends goes to the back of the queue; a
    task that returns or raises is finished. *)
Definition loop_step (w : World) (i : nat) (l : Loop) : Loop :=
  match ready l !! i with
  | None => l
  | Some task =>
      match body task with
      | Finish block =>
          let (r, s') := block w (process l) in
          {| ready := delete i (ready l);
             finished := (finished l ++ [(caller task, r)])%list;
             process := s' |}
      | Suspend block rest =>
          match block w (process l) with
          | (inl e, s') =>
              {| ready := delete i (ready l);
                 finished := (finished l ++ [(caller task, inl e)])%list;
                 process := s' |}
          | (inr _, s') =>
              {| ready := (delete i (ready l)
                           ++ [{| caller := caller task; body := rest |}])%list;
                 finished := finished l;
                 process := s' |}
          end
      end
  end.

(** A run of the loop: at each turn, the world and the task that is
    picked. *)
Definition run_loop (schedule : list (World * nat)) (l : Loop) : Loop :=
  fold_left (fun l turn => loop_step (fst turn) (snd turn) l) schedule l.

(** The coroutine of a call.  No operation of the source suspends: the
    only [await]s are on coroutine functions of the source itself
    ([await predict_with_validation(request)], [await
    make_prediction(request)], and the admin functions in the handlers),
    which run inside the awaiting task; [joblib.load] and [model.predict]
    are plain calls.  So a task, once picked, runs to its end. *)
Definition handler (cfg : Settings) (c : call) : coroutine :=
  Finish (fun w => serve cfg w c).

Definition task_of (cfg : Settings) (ic : nat * call) : Task :=
  {| caller := fst ic; body := handler cfg (snd ic) |}.

(** The calls arrive together: each is a task of its own, and all of them
    are ready before any has run.  Caller [i] made the [i]-th call. *)
Definition spawn (cfg : Settings) (calls : list call) (s : Process) : Loop :=
  {| ready := task_of cfg <$> imap pair calls;
     finished := [];
     process := s |}.

(** ** A concrete deployment, for running the definitions *)

Module Demo.

Definition one : spec_float := S754_finite false 1 0.
Definition half : spec_float := S754_finite false 1 (-1).
Definition two : spec_float := S754_finite false 1 1.
Definition three : spec_float := S754_finite false 3 0.

(** A regressor that answers a one-element array, whatever the input. *)
Definition regressor (y : spec_float) : Model :=
  {| predict := fun _ => inr (NdArray (PList [PScalar (PyFloat y)])) |}.

(** [models/] holds [v1] and [v2] with readable pickles, [v3] with a
    truncated one, and [v4] without a pickle. *)
Definition world : World :=
  {| files := fun p =>
       if String.eqb p "models/v1/model.pkl" then Some (Artifact (regressor one))
       else if String.eqb p "models/v2/model.pkl" then Some (Artifact (regressor half))
       else if String.eqb p "models/v3/model.pkl"
         then Some (Unreadable (Exn (OtherError "EOFError") "Ran out of input"))
       else None;
     dirs := fun p =>
       if String.eqb p "models" then Some ["v2"; "v4"; "v1"; "v3"]
       else if String.eqb p "models/v1" then Some ["model.pkl"]
       else if String.eqb p "models/v2" then Some ["model.pkl"]
       else if String.eqb p "models/v3" then Some ["model.pkl"]
       else if String.eqb p "models/v4" then Some []
       else None;
     load_seconds := two;
     predict_seconds := one;
     makedirs_error := fun _ => None |}.

Definition start : Process := Registry.__init__ settings.

Definition request (fs : list pyval) (v : option string) : PredictionRequest :=
  {| features := fs; version := v |}.

End Demo.


(** * Properties *)

Abbreviation cache s := (_models (model_registry s)).
Abbreviation durations s := (_load_times (model_registry s)).
Abbreviation active s := (_active_version (model_registry s)).

(** ** Notions used in the statements *)

(** The version a call resolves to, and where its pickle lives. *)
Definition effective (version : option string) (s : Process) : string :=
  py_or version (active s).

(** The state right after [_load_model] has cached [version]. *)
Definition loaded (cfg : Settings) (w : World) (version : string) (m : Model)
  (s : Process) : Process :=
  {| model_registry :=
       {| _models :=
            <[version := {| oid := length (joblib_calls s); obj := m |}]> (cache s);
          _active_version := active s;
          _load_times := <[version := load_seconds w]> (durations s) |};
     metrics :=
       {| MODEL_INFERENCE_LATENCY := MODEL_INFERENCE_LATENCY (metrics s);
          MODEL_PREDICTION_REQUESTS := MODEL_PREDICTION_REQUESTS (metrics s);
          MODEL_PREDICTION_ERRORS := MODEL_PREDICTION_ERRORS (metrics s);
          MODEL_VERSION_ACTIVE := MODEL_VERSION_ACTIVE (metrics s);
          MODEL_LOAD_TIME :=
            MODEL_LOAD_TIME (metrics s) ++ [(version, load_seconds w)] |};
     joblib_calls := joblib_calls s ++ [get_model_path cfg version] |}.

(** The state after a [joblib.load] that raised: only the call is logged. *)
Definition attempted (cfg : Settings) (version : string) (s : Process)
  : Process :=
  {| model_registry := model_registry s;
     metrics := metrics s;
     joblib_calls := joblib_calls s ++ [get_model_path cfg version] |}.

(** What [joblib.load] raises on a path that holds no readable pickle. *)
Definition load_error (w : World) (path : string) : exn :=
  match files w path with
  | Some (Unreadable e) => e
  | _ =>
      match dirs w path with
      | Some _ =>
          Exn IsADirectoryError (strerror "[Errno 21] Is a directory" path)
      | None =>
          Exn FileNotFoundError
            (strerror "[Errno 2] No such file or directory" path)
      end
  end.

(** [joblib.load] succeeds on [path]. *)
Definition readable (w : World) (path : string) : bool :=
  match files w path with
  | Some (Artifact _) => true
  | _ => false
  end.

(** The cache invariant: the two dicts have the same keys, and every cached
    handle was produced by a logged [joblib.load] of its version's pickle. *)
Definition consistent (cfg : Settings) (s : Process) : Prop :=
  (forall v, cache s !! v = None <-> durations s !! v = None) /\
  (forall v h, cache s !! v = Some h ->
     joblib_calls s !! oid h = Some (get_model_path cfg v)).

(** [s'] differs from [s] in the metrics only. *)
Definition same_registry (s s' : Process) : Prop :=
  model_registry s' = model_registry s /\ joblib_calls s' = joblib_calls s.

(** What one [get_model] can do to the state. *)
Inductive touched (cfg : Settings) (w : World) (e : string) (s : Process)
  : Process -> Prop :=
| touched_not : touched cfg w e s s
| touched_loaded m :
    cache s !! e = None ->
    files w (get_model_path cfg e) = Some (Artifact m) ->
    touched cfg w e s (loaded cfg w e m s)
| touched_attempted :
    cache s !! e = None ->
    readable w (get_model_path cfg e) = false ->
    touched cfg w e s (attempted cfg e s).

(** The state after a switch to [v] that went through. *)
Definition activated (v : string) (s : Process) : Process :=
  snd (metrics_set_active_version v
         {| model_registry :=
              {| _models := cache s;
                 _active_version := v;
                 _load_times := durations s |};
            metrics := metrics s;
            joblib_calls := joblib_calls s |}).

(** No request of the sequence switches the active version. *)
Fixpoint no_switch (cfg : Settings) (reqs : list (World * call)) (s : Process)
  : bool :=
  match reqs with
  | [] => true
  | (w, c) :: rest =>
      let (r, s') := serve cfg w c s in
      negb (switched c r) && no_switch cfg rest s'
  end.

(** A number that is neither NaN nor infinite. *)
Definition finite_number (x : pyval) : bool :=
  match x with
  | PyInt _ | PyBool _ => true
  | PyFloat (S754_zero _) | PyFloat (S754_finite _ _ _) => true
  | PyFloat (S754_infinity _) | PyFloat S754_nan => false
  | PyStr _ | PyNone => false
  end.

(** The entries on which [np.isnan] and [np.isinf] answer. *)
Definition numpy_classifies (x : pyval) : bool :=
  match x with
  | PyInt z => fits_numpy_integer z
  | _ => true
  end.

(** The exception that [make_prediction] raises in place of [err]. *)
Definition seen_by_predict (e : string) (err : exn) : exn :=
  if exn_class_eqb (exn_type err) FileNotFoundError
  then Exn ValueError ("Model version '" ++ e ++ "' not found")
  else Exn RuntimeError ("Prediction failed: " ++ exn_str err).

(** What [make_prediction] answers once it holds the handle [h] of the
    version [e]. *)
Definition respond (w : World) (e : string) (h : Handle)
  (request : PredictionRequest) : exn + PredictionResponse :=
  match predict (obj h) (features request) with
  | inl err => inl (seen_by_predict e err)
  | inr raw =>
      match normalize_prediction raw with
      | inl err => inl (seen_by_predict e err)
      | inr p =>
          match new_PredictionResponse p e
                  (float_mul (predict_seconds w) (float_of_int 1000)) with
          | inl err => inl (seen_by_predict e err)
          | inr resp => inr resp
          end
      end
  end.

(** The call resolves to version [e] when the active version is [a], and
    (for a prediction) its features pass validation. *)
Definition asks_for (e a : string) (c : call) : bool :=
  match c with
  | GetModel version => String.eqb (py_or version a) e
  | Predict request =>
      String.eqb (py_or (version request) a) e
      && match validate_features (features request) with
         | inr true => true
         | _ => false
         end
  | _ => false
  end.

(** What a caller gets once the handle [h] of [e] is at hand. *)
Definition answer_with (w : World) (e : string) (h : Handle) (c : call)
  : exn + value :=
  match c with
  | Predict request =>
      match respond w e h request with
      | inl err => inl err
      | inr r => inr (VResponse r)
      end
  | _ => inr (VHandle h)
  end.

(** What a caller gets when the load of [e] raised [err]. *)
Definition fail_with (e : string) (err : exn) (c : call) : exn + value :=
  match c with
  | Predict _ => inl (seen_by_predict e err)
  | _ => inl err
  end.

(** The eviction property as the specification words it: evicting a version
    that is not cached changes nothing. *)
Definition evict_absent_is_noop (v : string) (s : Process) : Prop :=
  cache s !! v = None -> Registry.clear_cache (Some v) s = (inr tt, s).

(** The override property as the specification words it: a prediction that
    is given an override runs on it. *)
Definition override_is_effective (cfg : Settings) (w : World)
  (request : PredictionRequest) (s : Process) : Prop :=
  forall v resp s',
    version request = Some v ->
    predict_with_validation cfg w request s = (inr resp, s') ->
    model_version resp = v.

(** The error-kind property as the specification words it: the failure of a
    prediction whose version has no pickle is of another kind than the
    failure on malformed features. *)
Definition model_unavailable_is_distinct (cfg : Settings) (w : World)
  (s : Process) (missing malformed : PredictionRequest) : Prop :=
  forall e1 e2,
    fst (predict_with_validation cfg w missing s) = inl e1 ->
    fst (predict_with_validation cfg w malformed s) = inl e2 ->
    exn_type e1 <> exn_type e2.

(** The single-flight property as the specification words it: [n] calls
    of [get_model(v)] on an uncached [v] that are in flight together (all
    of them tasks of the loop before any has run) cause exactly one load,
    whatever the order the loop runs them in, and all the callers get the
    same outcome. *)
Definition single_flight (cfg : Settings) (w : World) (v : string) (n : nat)
  (s : Process) : Prop :=
  cache s !! v = None ->
  forall picks,
    let l := run_loop (map (pair w) picks)
               (spawn cfg (replicate n (GetModel (Some v))) s) in
    ready l = [] ->
    joblib_calls (process l) = (joblib_calls s ++ [get_model_path cfg v])%list
    /\ forall r1 r2,
         r1 ∈ (snd <$> finished l) -> r2 ∈ (snd <$> finished l) -> r1 = r2.

(** ** Inspection: the rest of app/model_loader.py and app/admin.py *)

(** The two fields of [os.stat(path)] that the code reads. *)
Record stat_result := { st_size : nat; st_mtime : Time }.

Module Info.

(** The dict that [ModelRegistry.get_model_info] builds; the two keys that
    are only set when the pickle exists are options. *)
Record ModelInfo := {
  version : string;
  exists_ : bool;
  loaded : bool;
  load_time : option Time;
  active_ : bool;
  file_size : option nat;
  modified_time : option Time
}.

(** [ModelRegistry.get_model_info].  [os_stat] answers for the paths that
    exist; it is only asked about those. *)
Definition get_model_info (cfg : Settings) (w : World)
  (os_stat : string -> stat_result) (version : string) : Py ModelInfo :=
  let model_path := get_model_path cfg version in
  is_loaded <- gets (fun s =>
    bool_decide (is_Some (_models (model_registry s) !! version)));;
  duration <- gets (fun s => _load_times (model_registry s) !! version);;
  current <- gets (fun s => _active_version (model_registry s));;
  let present := os_path_exists w model_path in
  ret {| version := version;
         exists_ := present;
         loaded := is_loaded;
         load_time := duration;
         active_ := String.eqb version current;
         file_size :=
           if present then Some (st_size (os_stat model_path)) else None;
         modified_time :=
           if present then Some (st_mtime (os_stat model_path)) else None |}.

(** [admin.get_model_info]: the response carries the seven entries of the
    dict, absent keys as [None]. *)
Definition admin_get_model_info (cfg : Settings) (w : World)
  (os_stat : string -> stat_result) (v : string) : Py ModelInfo :=
  info <- get_model_info cfg w os_stat v;;
  ret {| version := version info;
         exists_ := exists_ info;
         loaded := loaded info;
         load_time := load_time info;
         active_ := active_ info;
         file_size := file_size info;
         modified_time := modified_time info |}.

(** The loop of [admin.get_all_models_info]. *)
Fixpoint collect (cfg : Settings) (w : World)
  (os_stat : string -> stat_result) (versions : list string)
  : Py (list ModelInfo) :=
  match versions with
  | [] => ret []
  | v :: rest =>
      info <- admin_get_model_info cfg w os_stat v;;
      infos <- collect cfg w os_stat rest;;
      ret (info :: infos)
  end.

Definition get_all_models_info (cfg : Settings) (w : World)
  (os_stat : string -> stat_result) : Py (list ModelInfo) :=
  available_versions <- lift (get_available_versions cfg w);;
  collect cfg w os_stat available_versions.

(** [GET /admin/active-version]: the active version and the catalogue. *)
Definition admin_get_active_version (cfg : Settings) (w : World)
  : Py (string * list string) :=
  current <- Registry.get_active_version;;
  available_versions <- lift (get_available_versions cfg w);;
  ret (current, available_versions).

End Info.

(** A second deployment: next to [v1], a version whose name is not one of
    the common ones. *)
Definition canary_world : World :=
  {| files := fun p =>
       if String.eqb p "models/v1/model.pkl"
       then Some (Artifact (Demo.regressor Demo.one))
       else if String.eqb p "models/canary/model.pkl"
       then Some (Artifact (Demo.regressor Demo.half))
       else None;
     dirs := fun p =>
       if String.eqb p "models" then Some ["canary"; "v1"]
       else if String.eqb p "models/v1" then Some ["model.pkl"]
       else if String.eqb p "models/canary" then Some ["model.pkl"]
       else None;
     load_seconds := Demo.three;
     predict_seconds := Demo.one;
     makedirs_error := fun _ => None |}.

(** The [error_type] label under which [make_prediction] counts the
    exception [err]. *)
Definition error_label (err : exn) : string :=
  if exn_class_eqb (exn_type err) FileNotFoundError then "model_not_found"
  else type_name err.





(** A classifier whose classes are names. *)
Definition label_model : Model :=
  {| predict := fun _ => inr (NdArray (PList [PScalar (PyStr "cat")])) |}.

(** What a prediction on [label_model] fails with. *)
Definition label_failure : exn :=
  Exn RuntimeError
      ("Prediction failed: "
       ++ exn_str (ValidationError
                     (map (pair []) [IntegerError; FloatError; ListError]))).

(** A store that holds the model [m] under every path. *)
Definition world_of (m : Model) : World :=
  {| files := fun _ => Some (Artifact m);
     dirs := fun _ => None;
     load_seconds := Demo.one;
     predict_seconds := Demo.one;
     makedirs_error := fun _ => None |}.

(** The raw output is an array or a plain object with these contents. *)
Definition holds (raw : raw_output) (contents : pyobj) : Prop :=
  raw = NdArray contents \/ raw = Plain contents.

(** The prediction as the specification words it: the single element of a
    one-element output, the whole output otherwise. *)
Definition unwrapped (contents : pyobj) : pyobj :=
  match contents with
  | PList [x] => x
  | _ => contents
  end.

(** The names that [metrics.set_active_version] resets. *)
Definition common_version_names : list string :=
  ["v1"; "v2"; "v3"; "v4"; "v5"].

(** The request is an eviction. *)
Definition is_clear (c : call) : bool :=
  match c with
  | ClearCache _ | AdminClearCache _ => true
  | _ => false
  end.

(** A feature that validation lets pass: numpy can classify it and it is a
    finite number. *)
Definition passes (x : pyval) : bool :=
  numpy_classifies x && finite_number x.

(** ** What [get_model] does *)

Section GetModel.

Variables (cfg : Settings) (w : World).

Lemma readable_exists path :
  readable w path = true -> os_path_exists w path = true.
Proof.
  unfold readable, os_path_exists.
  destruct (files w path) as [[m|e]|]; [done | discriminate | discriminate].
Qed.

Lemma load_model_ok version m s :
  files w (get_model_path cfg version) = Some (Artifact m) ->
  Registry._load_model cfg w version s = (inr tt, loaded cfg w version m s).
Proof.
  intros Hf. unfold Registry._load_model.
  rewrite (readable_exists (get_model_path cfg version)); simpl.
  - unfold try_except, bind, joblib_load, gets, modify, bind; simpl.
    by rewrite Hf.
  - unfold readable. by rewrite Hf.
Qed.

Lemma load_model_unreadable version s :
  os_path_exists w (get_model_path cfg version) = true ->
  readable w (get_model_path cfg version) = false ->
  Registry._load_model cfg w version s =
    (inl (Exn RuntimeError
            ("Failed to load model " ++ version ++ ": "
             ++ exn_str (load_error w (get_model_path cfg version)))),
     attempted cfg version s).
Proof.
  intros Hex Hr. unfold Registry._load_model. rewrite Hex; simpl.
  unfold try_except, bind, joblib_load, gets, modify, bind, load_error; simpl.
  unfold readable in Hr.
  destruct (files w (get_model_path cfg version)) as [[m|e]|];
    [discriminate | done |].
  by destruct (dirs w (get_model_path cfg version)).
Qed.

Lemma load_model_absent version s :
  os_path_exists w (get_model_path cfg version) = false ->
  Registry._load_model cfg w version s =
    (inl (Exn FileNotFoundError
            ("Model not found: " ++ get_model_path cfg version)), s).
Proof. intros Hex. unfold Registry._load_model. by rewrite Hex. Qed.

Lemma get_model_hit version s h :
  cache s !! effective version s = Some h ->
  Registry.get_model cfg w version s = (inr h, s).
Proof.
  intros Hc. unfold Registry.get_model, bind, gets; simpl.
  fold (effective version s). by rewrite Hc; simpl; rewrite Hc.
Qed.

Lemma get_model_miss_ok version m s :
  cache s !! effective version s = None ->
  files w (get_model_path cfg (effective version s)) = Some (Artifact m) ->
  Registry.get_model cfg w version s =
    (inr {| oid := length (joblib_calls s); obj := m |},
     loaded cfg w (effective version s) m s).
Proof.
  intros Hc Hf. unfold Registry.get_model, bind, gets; simpl.
  fold (effective version s). rewrite Hc.
  rewrite (load_model_ok _ m) by done. simpl.
  by rewrite lookup_insert_eq.
Qed.

Lemma get_model_miss_unreadable version s :
  cache s !! effective version s = None ->
  os_path_exists w (get_model_path cfg (effective version s)) = true ->
  readable w (get_model_path cfg (effective version s)) = false ->
  Registry.get_model cfg w version s =
    (inl (Exn RuntimeError
            ("Failed to load model " ++ effective version s ++ ": "
             ++ exn_str
                  (load_error w (get_model_path cfg (effective version s))))),
     attempted cfg (effective version s) s).
Proof.
  intros Hc Hex Hr. unfold Registry.get_model, bind, gets; simpl.
  fold (effective version s). rewrite Hc.
  by rewrite load_model_unreadable.
Qed.

Lemma get_model_miss_absent version s :
  cache s !! effective version s = None ->
  os_path_exists w (get_model_path cfg (effective version s)) = false ->
  Registry.get_model cfg w version s =
    (inl (Exn FileNotFoundError
            ("Model not found: "
             ++ get_model_path cfg (effective version s))), s).
Proof.
  intros Hc Hex. unfold Registry.get_model, bind, gets; simpl.
  fold (effective version s). rewrite Hc.
  by rewrite load_model_absent.
Qed.

End GetModel.

(** Resolving an already resolved version changes nothing: the [or] in
    [get_model] repeats the one in [make_prediction]. *)
Lemma effective_idem version s :
  effective (Some (effective version s)) s = effective version s.
Proof.
  unfold effective, py_or, truthy.
  destruct version as [v|]; simpl.
  - destruct (String.eqb v "") eqn:E; simpl.
    + destruct (String.eqb (active s) "") eqn:E'; simpl; [done | done].
    + by rewrite E.
  - destruct (String.eqb (active s) "") eqn:E'; simpl; done.
Qed.

Lemma effective_nonempty v s : v <> "" -> effective (Some v) s = v.
Proof.
  intros Hv. unfold effective, py_or, truthy.
  destruct (String.eqb_spec v ""); [done | done].
Qed.

Lemma effective_empty s : effective (Some "") s = active s.
Proof. done. Qed.

Lemma effective_none s : effective None s = active s.
Proof. done. Qed.

(** ** The invariant of the cache *)
Lemma same_registry_refl s : same_registry s s.
Proof. done. Qed.

Lemma same_registry_trans s1 s2 s3 :
  same_registry s1 s2 -> same_registry s2 s3 -> same_registry s1 s3.
Proof. intros [? ?] [? ?]. split; congruence. Qed.

Lemma consistent_same_registry cfg s s' :
  same_registry s s' -> consistent cfg s -> consistent cfg s'.
Proof.
  intros [Hr Hj] [H1 H2]. unfold consistent. rewrite Hr, Hj. by split.
Qed.

Lemma consistent_init cfg : consistent cfg (Registry.__init__ cfg).
Proof.
  split; simpl.
  - intros v. by rewrite !lookup_empty.
  - intros v h. by rewrite lookup_empty.
Qed.

Lemma consistent_loaded cfg w e m s :
  consistent cfg s -> consistent cfg (loaded cfg w e m s).
Proof.
  intros [H1 H2]. split; simpl.
  - intros v. destruct (decide (e = v)) as [->|Hne].
    + by rewrite !lookup_insert_eq.
    + rewrite !lookup_insert_ne by done. apply H1.
  - intros v h. destruct (decide (e = v)) as [->|Hne].
    + rewrite lookup_insert_eq. intros [= <-]. simpl.
      by rewrite lookup_app_r, Nat.sub_diag.
    + rewrite lookup_insert_ne by done. intros Hc.
      apply lookup_app_l_Some. by apply H2.
Qed.

Lemma consistent_attempted cfg e s :
  consistent cfg s -> consistent cfg (attempted cfg e s).
Proof.
  intros [H1 H2]. split; simpl; [done |].
  intros v h Hc. apply lookup_app_l_Some. by apply H2.
Qed.

Lemma consistent_touched cfg w e s s' :
  touched cfg w e s s' -> consistent cfg s -> consistent cfg s'.
Proof.
  destruct 1; auto using consistent_loaded, consistent_attempted.
Qed.

Lemma touched_active cfg w e s s' : touched cfg w e s s' -> active s' = active s.
Proof. by destruct 1. Qed.

Lemma get_model_touched cfg w version s :
  touched cfg w (effective version s) s
    (snd (Registry.get_model cfg w version s)).
Proof.
  destruct (cache s !! effective version s) as [h|] eqn:Hc.
  - rewrite (get_model_hit _ _ _ _ h) by done. constructor.
  - destruct (os_path_exists w (get_model_path cfg (effective version s)))
      eqn:Hex.
    + destruct (files w (get_model_path cfg (effective version s)))
        as [[m|e]|] eqn:Hf.
      * rewrite (get_model_miss_ok _ _ _ m) by done. by econstructor.
      * rewrite get_model_miss_unreadable; try done.
        -- constructor; [done |]. unfold readable. by rewrite Hf.
        -- unfold readable. by rewrite Hf.
      * rewrite get_model_miss_unreadable; try done.
        -- constructor; [done |]. unfold readable. by rewrite Hf.
        -- unfold readable. by rewrite Hf.
    + rewrite get_model_miss_absent by done. constructor.
Qed.

Lemma get_model_returns_cached cfg w version s h s' :
  Registry.get_model cfg w version s = (inr h, s') ->
  cache s' !! effective version s = Some h.
Proof.
  destruct (cache s !! effective version s) as [h0|] eqn:Hc.
  - rewrite (get_model_hit _ _ _ _ h0) by done. by intros [= <- <-].
  - destruct (os_path_exists w (get_model_path cfg (effective version s)))
      eqn:Hex.
    + destruct (readable w (get_model_path cfg (effective version s))) eqn:Hr.
      * unfold readable in Hr.
        destruct (files w (get_model_path cfg (effective version s)))
          as [[m|e]|] eqn:Hf; try discriminate.
        rewrite (get_model_miss_ok _ _ _ m) by done.
        intros [= <- <-]. simpl. by rewrite lookup_insert_eq.
      * by rewrite get_model_miss_unreadable.
    + by rewrite get_model_miss_absent.
Qed.

(** ** What a prediction does *)

Section MakePrediction.

Variables (cfg : Settings) (w : World).

(** The whole of [make_prediction], split at the result of [get_model].
    The response is built after the success has been counted, so a response
    that the schema refuses leaves both counts. *)
Lemma make_prediction_eq request s :
  make_prediction cfg w request s =
    let e := effective (version request) s in
    let s0 := snd (Registry.get_model cfg w (Some e) s) in
    let failed err s1 :=
      (inl (seen_by_predict e err),
       snd (record_prediction_error e (error_label err) s1)) in
    match fst (Registry.get_model cfg w (Some e) s) with
    | inl err => failed err s0
    | inr h =>
        match predict (obj h) (features request) with
        | inl err => failed err s0
        | inr raw =>
            match normalize_prediction raw with
            | inl err => failed err s0
            | inr p =>
                let latency :=
                  float_mul (predict_seconds w) (float_of_int 1000) in
                let s1 :=
                  snd (record_prediction_request e "success"
                         (snd (record_inference_latency e
                                 (float_div latency (float_of_int 1000))
                                 s0))) in
                match new_PredictionResponse p e latency with
                | inl err => failed err s1
                | inr resp => (inr resp, s1)
                end
            end
        end
    end.
Proof.
  unfold make_prediction, bind, try_except, Registry.get_active_version, gets,
    seen_by_predict, error_label.
  cbv beta iota zeta.
  change (py_or (version request) (active s))
    with (effective (version request) s).
  destruct (Registry.get_model cfg w (Some (effective (version request) s)) s)
    as [[e|h] s0]; simpl.
  - by destruct (exn_class_eqb (exn_type e) FileNotFoundError).
  - destruct (predict (obj h) (features request)) as [e|raw]; simpl.
    + by destruct (exn_class_eqb (exn_type e) FileNotFoundError).
    + destruct (normalize_prediction raw) as [e|p]; simpl.
      * by destruct (exn_class_eqb (exn_type e) FileNotFoundError).
      * destruct (new_PredictionResponse p (effective (version request) s)
                    (float_mul (predict_seconds w) (float_of_int 1000)))
          as [e|resp]; simpl; [| done].
        by destruct (exn_class_eqb (exn_type e) FileNotFoundError).
Qed.

Lemma new_PredictionResponse_ok p e latency resp :
  new_PredictionResponse p e latency = inr resp ->
  validate_prediction p = inr (prediction resp)
  /\ model_version resp = e
  /\ latency_ms resp = latency.
Proof.
  unfold new_PredictionResponse.
  destruct (validate_prediction p) as [errors|value]; [discriminate |].
  by intros [= <-].
Qed.

(** A successful [make_prediction], read backwards: the model came from
    [get_model] on the resolved version, it answered, the answer went
    through the normalisation, and the schema accepted what came out. *)
Lemma make_prediction_success request s resp s' :
  make_prediction cfg w request s = (inr resp, s') ->
  exists h raw p s0,
    Registry.get_model cfg w (Some (effective (version request) s)) s
      = (inr h, s0)
    /\ predict (obj h) (features request) = inr raw
    /\ normalize_prediction raw = inr p
    /\ validate_prediction p = inr (prediction resp)
    /\ model_version resp = effective (version request) s
    /\ latency_ms resp = float_mul (predict_seconds w) (float_of_int 1000)
    /\ same_registry s0 s'.
Proof.
  rewrite make_prediction_eq. cbv zeta.
  destruct (Registry.get_model cfg w (Some (effective (version request) s)) s)
    as [[e|h] s0] eqn:Hg; cbn [fst snd]; [discriminate |].
  destruct (predict (obj h) (features request)) as [e|raw] eqn:Hp;
    [discriminate |].
  destruct (normalize_prediction raw) as [e|p] eqn:Hn; [discriminate |].
  destruct (new_PredictionResponse p (effective (version request) s)
              (float_mul (predict_seconds w) (float_of_int 1000)))
    as [e|r] eqn:Hr; [discriminate |].
  intros [= <- <-].
  apply new_PredictionResponse_ok in Hr as (Hval & Hver & Hlat).
  exists h, raw, p, s0. by repeat split.
Qed.

Lemma make_prediction_after request s :
  same_registry
    (snd (Registry.get_model cfg w (Some (effective (version request) s)) s))
    (snd (make_prediction cfg w request s)).
Proof.
  rewrite make_prediction_eq. cbv zeta.
  destruct (fst (Registry.get_model cfg w
                   (Some (effective (version request) s)) s)) as [e|h];
    [done |].
  destruct (predict (obj h) (features request)) as [e|raw]; [done |].
  destruct (normalize_prediction raw) as [e|p]; [done |].
  by destruct (new_PredictionResponse p (effective (version request) s)
                 (float_mul (predict_seconds w) (float_of_int 1000))).
Qed.

Lemma make_prediction_touched request s :
  exists s0,
    touched cfg w (effective (version request) s) s s0
    /\ same_registry s0 (snd (make_prediction cfg w request s)).
Proof.
  pose proof (get_model_touched cfg w (Some (effective (version request) s)) s)
    as Ht.
  rewrite effective_idem in Ht.
  exists (snd (Registry.get_model cfg w
                 (Some (effective (version request) s)) s)).
  split; [done | apply make_prediction_after].
Qed.

(** Rejected input never reaches [make_prediction]. *)
Lemma predict_with_validation_rejected request s :
  validate_features (features request) = inr false ->
  predict_with_validation cfg w request s =
    (inl (Exn ValueError "Invalid features provided"), s).
Proof. intros Hv. unfold predict_with_validation, bind. by rewrite Hv. Qed.

Lemma predict_with_validation_raised request e s :
  validate_features (features request) = inl e ->
  predict_with_validation cfg w request s = (inl e, s).
Proof. intros Hv. unfold predict_with_validation, bind. by rewrite Hv. Qed.

Lemma predict_with_validation_accepted request s :
  validate_features (features request) = inr true ->
  predict_with_validation cfg w request s = make_prediction cfg w request s.
Proof. intros Hv. unfold predict_with_validation, bind. by rewrite Hv. Qed.

Lemma predict_with_validation_touched request s :
  exists s0,
    touched cfg w (effective (version request) s) s s0
    /\ same_registry s0 (snd (predict_with_validation cfg w request s)).
Proof.
  destruct (validate_features (features request)) as [e|[|]] eqn:Hv.
  - rewrite (predict_with_validation_raised _ e) by done.
    exists s. split; [constructor | done].
  - rewrite predict_with_validation_accepted by done.
    apply make_prediction_touched.
  - rewrite predict_with_validation_rejected by done.
    exists s. split; [constructor | done].
Qed.

End MakePrediction.

Lemma make_prediction_result cfg w request s :
  fst (make_prediction cfg w request s) =
    match fst (Registry.get_model cfg w
                 (Some (effective (version request) s)) s) with
    | inl err => inl (seen_by_predict (effective (version request) s) err)
    | inr h => respond w (effective (version request) s) h request
    end.
Proof.
  rewrite make_prediction_eq. cbv zeta. unfold respond.
  destruct (fst (Registry.get_model cfg w
                   (Some (effective (version request) s)) s)) as [e|h];
    [done |].
  destruct (predict (obj h) (features request)) as [e|raw]; [done |].
  destruct (normalize_prediction raw) as [e|p]; [done |].
  by destruct (new_PredictionResponse p (effective (version request) s)
                 (float_mul (predict_seconds w) (float_of_int 1000))).
Qed.

Lemma post_predict_result cfg w request s :
  fst (Main.predict cfg w request s) =
    match fst (predict_with_validation cfg w request s) with
    | inr body => inr (Main.OK body)
    | inl err =>
        match exn_type err with
        | ValueError => inr (Main.HTTPException 400 (exn_str err))
        | RuntimeError => inr (Main.HTTPException 500 (exn_str err))
        | _ => inl err
        end
    end.
Proof.
  unfold Main.predict, try_except, bind, ret.
  destruct (predict_with_validation cfg w request s) as [[e|r] s']; [| done].
  simpl. by destruct (exn_type e).
Qed.

(** ** One request at a time *)

Lemma fmap_py_after {A B} (f : A -> B) (m : Py A) s :
  snd (fmap_py f m s) = snd (m s).
Proof. unfold fmap_py, bind, ret. by destruct (m s) as [[e|a] s']. Qed.

Lemma fmap_py_result {A B} (f : A -> B) (m : Py A) s :
  fst (fmap_py f m s) =
    match fst (m s) with
    | inl e => inl e
    | inr a => inr (f a)
    end.
Proof. unfold fmap_py, bind, ret. by destruct (m s) as [[e|a] s']. Qed.

Section Serve.

Variables (cfg : Settings) (w : World).

Lemma post_predict_after request s :
  snd (Main.predict cfg w request s)
    = snd (predict_with_validation cfg w request s).
Proof.
  unfold Main.predict, try_except, bind, ret.
  destruct (predict_with_validation cfg w request s) as [[e|r] s']; [| done].
  by destruct (exn_type e).
Qed.

Lemma startup_touched s :
  exists w', touched cfg w' (active s) s (snd (Main.startup_event cfg w s)).
Proof.
  unfold Main.startup_event, bind, lift.
  destruct (os_makedirs w (models_dir cfg)) as [e|w'].
  - exists w. constructor.
  - exists w'. pose proof (get_model_touched cfg w' None s) as Ht.
    rewrite effective_none in Ht. unfold try_except, bind, ret. simpl.
    destruct (Registry.get_model cfg w' None s) as [[e|r] s']; [| done].
    by destruct (exn_class_eqb (exn_type e) FileNotFoundError).
Qed.

Lemma set_active_version_present v s :
  os_path_exists w (get_model_path cfg v) = true ->
  Registry.set_active_version cfg w v s = (inr true, activated v s).
Proof. intros Hex. unfold Registry.set_active_version. by rewrite Hex. Qed.

Lemma set_active_version_absent v s :
  os_path_exists w (get_model_path cfg v) = false ->
  Registry.set_active_version cfg w v s = (inr false, s).
Proof. intros Hex. unfold Registry.set_active_version. by rewrite Hex. Qed.

Lemma consistent_activated v s :
  consistent cfg s -> consistent cfg (activated v s).
Proof. by intros [H1 H2]. Qed.

(** A name that the catalogue lists has its pickle on disk. *)
Lemma available_exists v available_versions :
  get_available_versions cfg w = inr available_versions ->
  v ∈ available_versions ->
  os_path_exists w (get_model_path cfg v) = true.
Proof.
  unfold get_available_versions.
  destruct (os_path_exists w (models_dir cfg)); simpl.
  - destruct (os_listdir w (models_dir cfg)) as [e|items]; [done |].
    intros [= <-]. unfold sorted. rewrite merge_sort_Permutation.
    rewrite list_elem_of_filter. by intros [? _].
  - intros [= <-]. by rewrite elem_of_nil.
Qed.

Lemma admin_set_active_version_cases v s :
  match get_available_versions cfg w with
  | inl e => Admin.set_active_version cfg w v s = (inl e, s)
  | inr available_versions =>
      if bool_decide (v ∈ available_versions) then
        Admin.set_active_version cfg w v s =
          (inr {| Admin.success := true;
                  Admin.message_of := Admin.Switched v;
                  Admin.active_version := v |}, activated v s)
      else
        Admin.set_active_version cfg w v s =
          (inr {| Admin.success := false;
                  Admin.message_of := Admin.NotFound v available_versions;
                  Admin.active_version := active s |}, s)
  end.
Proof.
  unfold Admin.set_active_version, bind, lift.
  destruct (get_available_versions cfg w) as [e|available_versions] eqn:Ha;
    [done |].
  simpl. destruct (bool_decide (v ∈ available_versions)) eqn:Hin; simpl.
  - apply bool_decide_eq_true in Hin.
    rewrite set_active_version_present; [done |].
    by eapply available_exists.
  - done.
Qed.

Lemma clear_cache_consistent version s :
  consistent cfg s -> consistent cfg (snd (Registry.clear_cache version s)).
Proof.
  intros [H1 H2]. unfold Registry.clear_cache.
  destruct (truthy version); simpl.
  - split; simpl.
    + intros v. destruct (decide (default "" version = v)) as [<-|Hne].
      * by rewrite !lookup_delete_eq.
      * rewrite !lookup_delete_ne by done. apply H1.
    + intros v h Hc. apply lookup_delete_Some in Hc as [_ Hc]. by apply H2.
  - split; simpl.
    + intros v. by rewrite !lookup_empty.
    + intros v h. by rewrite lookup_empty.
Qed.

Lemma clear_cache_active version s :
  active (snd (Registry.clear_cache version s)) = active s.
Proof. unfold Registry.clear_cache. by destruct (truthy version). Qed.

(** Every request keeps the cache invariant. *)
Lemma consistent_serve c s :
  consistent cfg s -> consistent cfg (snd (serve cfg w c s)).
Proof.
  intros Hs.
  destruct c as [ov|v| |v|v|ov|request|request|v|ov| |];
    cbn [serve]; rewrite fmap_py_after.
  - eapply consistent_touched; [apply get_model_touched | done].
  - destruct (os_path_exists w (get_model_path cfg v)) eqn:Hex.
    + rewrite set_active_version_present by done.
      by apply consistent_activated.
    + by rewrite set_active_version_absent.
  - done.
  - done.
  - done.
  - by apply clear_cache_consistent.
  - destruct (predict_with_validation_touched cfg w request s)
      as (s0 & Ht & Hsame).
    eapply consistent_same_registry; [done |].
    by eapply consistent_touched.
  - rewrite post_predict_after.
    destruct (predict_with_validation_touched cfg w request s)
      as (s0 & Ht & Hsame).
    eapply consistent_same_registry; [done |].
    by eapply consistent_touched.
  - pose proof (admin_set_active_version_cases v s) as Hc.
    destruct (get_available_versions cfg w) as [e|available_versions].
    + by rewrite Hc.
    + destruct (bool_decide (v ∈ available_versions)); rewrite Hc.
      * by apply consistent_activated.
      * done.
  - unfold Admin.clear_model_cache, bind, ret.
    pose proof (clear_cache_consistent ov s Hs) as Hc.
    by destruct (Registry.clear_cache ov s) as [[e|[]] s'].
  - unfold Admin.get_health_status, bind, lift, Registry.get_active_version,
      gets; simpl.
    by destruct (get_available_versions cfg w).
  - destruct (startup_touched s) as [w' Ht].
    by eapply consistent_touched.
Qed.

(** A request that is not a switch that went through leaves the active
    version alone. *)
Lemma active_serve c s :
  switched c (fst (serve cfg w c s)) = false ->
  active (snd (serve cfg w c s)) = active s.
Proof.
  destruct c as [ov|v| |v|v|ov|request|request|v|ov| |];
    cbn [serve]; rewrite fmap_py_after, fmap_py_result; intros Hsw.
  - eapply touched_active, get_model_touched.
  - destruct (os_path_exists w (get_model_path cfg v)) eqn:Hex.
    + rewrite set_active_version_present in Hsw by done. discriminate.
    + by rewrite set_active_version_absent.
  - done.
  - done.
  - done.
  - apply clear_cache_active.
  - destruct (predict_with_validation_touched cfg w request s)
      as (s0 & Ht & [Hr _]).
    rewrite Hr. by eapply touched_active.
  - rewrite post_predict_after.
    destruct (predict_with_validation_touched cfg w request s)
      as (s0 & Ht & [Hr _]).
    rewrite Hr. by eapply touched_active.
  - pose proof (admin_set_active_version_cases v s) as Hc.
    destruct (get_available_versions cfg w) as [e|available_versions].
    + by rewrite Hc.
    + destruct (bool_decide (v ∈ available_versions));
        rewrite Hc in *; [discriminate | done].
  - unfold Admin.clear_model_cache, bind, ret.
    pose proof (clear_cache_active ov s) as Hc.
    by destruct (Registry.clear_cache ov s) as [[e|[]] s'].
  - unfold Admin.get_health_status, bind, lift, Registry.get_active_version,
      gets; simpl.
    by destruct (get_available_versions cfg w).
  - destruct (startup_touched s) as [w' Ht].
    by eapply touched_active.
Qed.

End Serve.

Lemma consistent_serve_all cfg reqs s :
  consistent cfg s -> consistent cfg (snd (serve_all cfg reqs s)).
Proof.
  revert s. induction reqs as [|[w c] reqs IH]; intros s Hs; [done |].
  simpl. pose proof (consistent_serve cfg w c s Hs) as H1.
  destruct (serve cfg w c s) as [r s1]. simpl in H1.
  specialize (IH s1 H1). by destruct (serve_all cfg reqs s1).
Qed.

Lemma reachable_consistent cfg s : reachable cfg s -> consistent cfg s.
Proof.
  intros [reqs <-]. apply consistent_serve_all, consistent_init.
Qed.

Lemma active_serve_all cfg reqs s :
  no_switch cfg reqs s = true ->
  active (snd (serve_all cfg reqs s)) = active s.
Proof.
  revert s. induction reqs as [|[w c] reqs IH]; intros s; [done |].
  simpl. pose proof (active_serve cfg w c s) as Hstep.
  destruct (serve cfg w c s) as [r s1]. simpl in Hstep.
  intros [Hsw Hrest]%andb_prop. apply negb_true_iff in Hsw.
  specialize (IH s1 Hrest). destruct (serve_all cfg reqs s1) as [rs s2].
  simpl in *. rewrite IH. by apply Hstep.
Qed.

Lemma switched_active cfg w c v s :
  c = SetActiveVersion v \/ c = AdminSetActiveVersion v ->
  switched c (fst (serve cfg w c s)) = true ->
  active (snd (serve cfg w c s)) = v.
Proof.
  intros [-> | ->]; cbn [serve]; rewrite fmap_py_after, fmap_py_result.
  - destruct (os_path_exists w (get_model_path cfg v)) eqn:Hex.
    + by rewrite set_active_version_present.
    + by rewrite set_active_version_absent.
  - pose proof (admin_set_active_version_cases cfg w v s) as Hc.
    destruct (get_available_versions cfg w) as [e|available_versions].
    + by rewrite Hc.
    + destruct (bool_decide (v ∈ available_versions)); rewrite Hc; [done |].
      discriminate.
Qed.

(** ** Switching the active version *)

(** C2. A switch to a version whose pickle is not in the store fails and
    changes nothing: [ModelRegistry.set_active_version] returns [False], the
    admin operation answers [success=False] with the "not found" message and
    the unchanged active version (or passes on the error of listing the
    store), the process state is the one before the call, and
    [get_active_version] still returns the value from before. *)
Theorem set_active_version_missing cfg w v s :
  os_path_exists w (get_model_path cfg v) = false ->
  Registry.set_active_version cfg w v s = (inr false, s)
  /\ match get_available_versions cfg w with
     | inr available_versions =>
         Admin.set_active_version cfg w v s =
           (inr {| Admin.success := false;
                   Admin.message_of := Admin.NotFound v available_versions;
                   Admin.active_version := active s |}, s)
     | inl e => Admin.set_active_version cfg w v s = (inl e, s)
     end
  /\ Registry.get_active_version
       (snd (Registry.set_active_version cfg w v s)) = (inr (active s), s)
  /\ Registry.get_active_version
       (snd (Admin.set_active_version cfg w v s)) = (inr (active s), s).
Proof.
  intros Hex.
  pose proof (admin_set_active_version_cases cfg w v s) as Hc.
  assert (Hadmin : snd (Admin.set_active_version cfg w v s) = s).
  { destruct (get_available_versions cfg w) as [e|available_versions] eqn:Ha.
    - by rewrite Hc.
    - destruct (bool_decide (v ∈ available_versions)) eqn:Hin.
      + apply bool_decide_eq_true in Hin.
        pose proof (available_exists cfg w v _ Ha Hin). congruence.
      + by rewrite Hc. }
  rewrite Hadmin, set_active_version_absent by done.
  repeat split; try done.
  destruct (get_available_versions cfg w) as [e|available_versions] eqn:Ha;
    [done |].
  destruct (bool_decide (v ∈ available_versions)) eqn:Hin; [| done].
  apply bool_decide_eq_true in Hin.
  pose proof (available_exists cfg w v _ Ha Hin). congruence.
Qed.

Lemma set_active_version_missing_witness :
  os_path_exists Demo.world (get_model_path settings "v4") = false
  /\ Registry.set_active_version settings Demo.world "v4" Demo.start
     = (inr false, Demo.start).
Proof.
  split; [reflexivity |].
  apply (set_active_version_missing settings Demo.world "v4" Demo.start).
  reflexivity.
Defined.

(** C4. Once a switch to [v] has gone through (and the registry's own
    [set_active_version] does go through whenever the pickle of [v] is in the
    store), [get_active_version] returns [v] after any further requests
    (model loads, predictions, evictions, health checks, switches that fail),
    as long as none of them is a switch that goes through. *)
Theorem active_version_holds cfg w v s c :
  os_path_exists w (get_model_path cfg v) = true ->
  c = SetActiveVersion v \/ c = AdminSetActiveVersion v ->
  switched c (fst (serve cfg w c s)) = true ->
  switched (SetActiveVersion v) (fst (serve cfg w (SetActiveVersion v) s))
    = true
  /\ forall reqs w',
       no_switch cfg reqs (snd (serve cfg w c s)) = true ->
       fst (serve cfg w' GetActiveVersion
              (snd (serve_all cfg reqs (snd (serve cfg w c s)))))
         = inr (VStr v).
Proof.
  intros Hex Hc Hsw. split.
  - cbn [serve]. rewrite fmap_py_result.
    by rewrite set_active_version_present.
  - intros reqs w' Hquiet. cbn [serve]. rewrite fmap_py_result.
    unfold Registry.get_active_version, gets. cbn [fst].
    rewrite active_serve_all by done.
    by rewrite (switched_active cfg w c v s).
Qed.

Lemma active_version_holds_witness :
  fst (serve settings Demo.world GetActiveVersion
         (snd (serve_all settings
                 [(Demo.world, GetModel (Some "v1"));
                  (Demo.world, Predict (Demo.request [PyInt 3] None));
                  (Demo.world, ClearCache None);
                  (Demo.world, AdminSetActiveVersion "v4")]
                 (snd (serve settings Demo.world (SetActiveVersion "v2")
                         Demo.start)))))
    = inr (VStr "v2").
Proof.
  apply (active_version_holds settings Demo.world "v2" Demo.start
           (SetActiveVersion "v2")).
  - reflexivity.
  - by left.
  - reflexivity.
  - vm_compute. reflexivity.
Defined.

(** ** Eviction *)

(** The claim fails for the empty version name: [clear_cache("")] takes the
    branch that clears everything, so a cached [v1] is gone although [""]
    was never cached. *)
Lemma evict_empty_name_clears_all :
  ~ evict_absent_is_noop ""
      (snd (serve settings Demo.world (GetModel (Some "v1")) Demo.start)).
Proof.
  intros Hnoop.
  assert (Hafter :
    cache (snd (Registry.clear_cache (Some "")
             (snd (serve settings Demo.world (GetModel (Some "v1"))
                     Demo.start)))) !! "v1" = None) by reflexivity.
  rewrite Hnoop in Hafter by reflexivity.
  vm_compute in Hafter. discriminate.
Qed.

(** C9. For a non-empty version name [v] that is not cached,
    [clear_cache(v)] returns normally and leaves the process state as it
    was; and whatever the state, a second [clear_cache(v)] right after the
    first changes nothing and raises nothing. *)
Theorem evict_absent_noop cfg v s :
  v <> "" ->
  reachable cfg s ->
  (cache s !! v = None ->
     Registry.clear_cache (Some v) s = (inr tt, s)
     /\ Admin.clear_model_cache (Some v) s = (inr (Some v), s))
  /\ Registry.clear_cache (Some v) (snd (Registry.clear_cache (Some v) s))
     = (inr tt, snd (Registry.clear_cache (Some v) s)).
Proof.
  intros Hv Hreach.
  assert (Htruthy : truthy (Some v) = true).
  { unfold truthy. by destruct (String.eqb_spec v ""). }
  split.
  - intros Hc.
    destruct (reachable_consistent cfg s Hreach) as [Hkeys _].
    assert (Hd : durations s !! v = None) by by apply Hkeys.
    assert (Hclear : Registry.clear_cache (Some v) s = (inr tt, s)).
    { unfold Registry.clear_cache. rewrite Htruthy.
      unfold bind, update_registry, modify. simpl.
      rewrite !delete_id by done.
      by destruct s as [[? ? ?] ? ?]. }
    split; [done |].
    unfold Admin.clear_model_cache, bind. by rewrite Hclear.
  - unfold Registry.clear_cache. rewrite Htruthy.
    unfold bind, update_registry, modify. simpl.
    by rewrite !delete_delete_eq.
Qed.

Lemma evict_absent_noop_witness :
  Registry.clear_cache (Some "v2")
    (snd (serve settings Demo.world (GetModel (Some "v1")) Demo.start))
  = (inr tt, snd (serve settings Demo.world (GetModel (Some "v1")) Demo.start)).
Proof.
  refine (proj1 (proj1 (evict_absent_noop settings "v2"
            (snd (serve settings Demo.world (GetModel (Some "v1")) Demo.start))
            _ _) _)).
  - discriminate.
  - by exists [(Demo.world, GetModel (Some "v1"))].
  - reflexivity.
Defined.

(** ** The version a prediction runs on *)

(** C10. An override that is the empty string is the same as no override:
    [make_prediction], [predict_with_validation] and [get_model] do exactly
    what they do without one, and the version they resolve to is the active
    one. *)
Theorem empty_override_is_no_override cfg w fs s :
  make_prediction cfg w {| features := fs; version := Some "" |} s
    = make_prediction cfg w {| features := fs; version := None |} s
  /\ predict_with_validation cfg w {| features := fs; version := Some "" |} s
     = predict_with_validation cfg w {| features := fs; version := None |} s
  /\ Registry.get_model cfg w (Some "") s = Registry.get_model cfg w None s
  /\ effective (Some "") s = active s
  /\ forall resp s',
       predict_with_validation cfg w {| features := fs; version := Some "" |} s
         = (inr resp, s') ->
       model_version resp = active s.
Proof.
  repeat split; try reflexivity.
  intros resp s' Hp.
  destruct (validate_features fs) as [e|[|]] eqn:Hv.
  - by rewrite (predict_with_validation_raised _ _ _ e) in Hp.
  - rewrite predict_with_validation_accepted in Hp by done.
    by apply make_prediction_success in Hp
      as (h & raw & p & s0 & _ & _ & _ & _ & -> & _).
  - by rewrite predict_with_validation_rejected in Hp.
Qed.

(** With the override [""] and [v1] active, the response reports [v1]. *)
Lemma empty_override_reports_active :
  ~ override_is_effective settings Demo.world
      (Demo.request [PyFloat Demo.one] (Some "")) Demo.start.
Proof.
  intros Hclaim.
  specialize (Hclaim ""
    {| prediction := Number (AsInt 1);
       model_version := "v1";
       latency_ms := float_mul Demo.one (float_of_int 1000) |}
    (snd (predict_with_validation settings Demo.world
            (Demo.request [PyFloat Demo.one] (Some "")) Demo.start))
    eq_refl eq_refl).
  discriminate.
Qed.

(** C7. A prediction whose features pass validation runs on the version it
    resolves: the override when that is a non-empty string, the active
    version when the override is absent or empty.  That version is the one
    handed to [get_model] and named in a failure; a successful response
    reports it, and its cached artifact is the one that produced the output
    the response was built from, so a non-empty override bypasses the
    active version. *)
Theorem effective_version_reported cfg w request s :
  validate_features (features request) = inr true ->
  effective (version request) s
    = match version request with
      | Some v => if String.eqb v "" then active s else v
      | None => active s
      end
  /\ fst (predict_with_validation cfg w request s)
     = match fst (Registry.get_model cfg w
                    (Some (effective (version request) s)) s) with
       | inl err => inl (seen_by_predict (effective (version request) s) err)
       | inr h => respond w (effective (version request) s) h request
       end
  /\ forall resp s',
       predict_with_validation cfg w request s = (inr resp, s') ->
       model_version resp = effective (version request) s
       /\ exists h raw p,
            cache s' !! effective (version request) s = Some h
            /\ predict (obj h) (features request) = inr raw
            /\ normalize_prediction raw = inr p
            /\ new_PredictionResponse p (effective (version request) s)
                 (latency_ms resp) = inr resp.
Proof.
  intros Hv. split; [| split].
  - unfold effective, py_or, truthy.
    destruct (version request) as [v|]; [| done].
    by destruct (String.eqb v "").
  - rewrite predict_with_validation_accepted by done.
    apply make_prediction_result.
  - intros resp s' Hp.
    rewrite predict_with_validation_accepted in Hp by done.
    apply make_prediction_success in Hp
      as (h & raw & p & s0 & Hg & Hpred & Hnorm & Hval & Hver & _ & [Hreg _]).
    split; [done |].
    exists h, raw, p. repeat split; [| done | done |].
    + apply get_model_returns_cached in Hg.
      rewrite effective_idem in Hg. by rewrite Hreg.
    + unfold new_PredictionResponse. rewrite Hval, <- Hver.
      by destruct resp.
Qed.

Lemma effective_version_reported_witness :
  model_version
    {| prediction := Number (AsInt 0);
       model_version := "v2";
       latency_ms := float_mul Demo.one (float_of_int 1000) |}
  = effective (version (Demo.request [PyFloat Demo.one; PyInt 4] (Some "v2")))
      Demo.start.
Proof.
  refine (proj1 (proj2 (proj2
            (effective_version_reported settings Demo.world
               (Demo.request [PyFloat Demo.one; PyInt 4] (Some "v2"))
               Demo.start _))
            {| prediction := Number (AsInt 0);
               model_version := "v2";
               latency_ms := float_mul Demo.one (float_of_int 1000) |}
            (snd (predict_with_validation settings Demo.world
                    (Demo.request [PyFloat Demo.one; PyInt 4] (Some "v2"))
                    Demo.start))
            _)); reflexivity.
Defined.

(** ** The shape of the output *)

Lemma normalize_prediction_holds raw contents :
  holds raw (PList contents) ->
  normalize_prediction raw = inr (unwrapped (PList contents)).
Proof.
  intros [-> | ->]; unfold normalize_prediction; simpl;
    by destruct contents as [|x [|y rest]].
Qed.

Lemma validate_entries_ints i zs :
  validate_entries i (map (fun z => PScalar (PyInt z)) zs)
    = ([], map AsInt zs).
Proof.
  revert i. induction zs as [|z zs IH]; intros i; [done |].
  simpl. by rewrite IH.
Qed.

(** What a successful prediction carries: the output of the cached
    artifact of the reported version, with the single entry taken out of a
    one-entry sequence, as the response schema stores it. *)
Lemma prediction_shape cfg w request s resp s' :
  make_prediction cfg w request s = (inr resp, s')
  \/ predict_with_validation cfg w request s = (inr resp, s') ->
  exists h raw,
    cache s' !! model_version resp = Some h
    /\ predict (obj h) (features request) = inr raw
    /\ forall contents,
         holds raw (PList contents) ->
         validate_prediction (unwrapped (PList contents))
           = inr (prediction resp).
Proof.
  intros Hp.
  assert (Hm : make_prediction cfg w request s = (inr resp, s')).
  { destruct Hp as [Hp|Hp]; [done |].
    destruct (validate_features (features request)) as [e|[|]] eqn:Hv.
    - by rewrite (predict_with_validation_raised _ _ _ e) in Hp.
    - by rewrite predict_with_validation_accepted in Hp.
    - by rewrite predict_with_validation_rejected in Hp. }
  apply make_prediction_success in Hm
    as (h & raw & p & s0 & Hg & Hpred & Hnorm & Hval & Hver & _ & [Hreg _]).
  exists h, raw. repeat split; [| done |].
  - apply get_model_returns_cached in Hg.
    rewrite effective_idem in Hg. by rewrite Hver, Hreg.
  - intros contents Hraw.
    rewrite (normalize_prediction_holds _ contents) in Hnorm by done.
    congruence.
Qed.

(** On outputs that hold integers, the response carries the single element
    of a one-element output and the whole of any other output. *)
Lemma prediction_of_integers cfg w request s resp s' h raw :
  make_prediction cfg w request s = (inr resp, s') ->
  cache s' !! model_version resp = Some h ->
  predict (obj h) (features request) = inr raw ->
  (forall z, holds raw (PList [PScalar (PyInt z)]) ->
     prediction resp = Number (AsInt z))
  /\ (forall zs, holds raw (PList (map (fun z => PScalar (PyInt z)) zs)) ->
        length zs <> 1 ->
        prediction resp = Numbers (map AsInt zs)).
Proof.
  intros Hm Hc Hp.
  destruct (prediction_shape cfg w request s resp s' (or_introl Hm))
    as (h' & raw' & Hc' & Hp' & Hshape).
  assert (raw' = raw) as -> by congruence.
  split.
  - intros z Hraw. specialize (Hshape _ Hraw). simpl in Hshape. congruence.
  - intros zs Hraw Hlen. specialize (Hshape _ Hraw).
    assert (Hun : unwrapped (PList (map (fun z => PScalar (PyInt z)) zs))
                  = PList (map (fun z => PScalar (PyInt z)) zs)).
    { by destruct zs as [|z [|z' zs]]. }
    rewrite Hun in Hshape. simpl in Hshape.
    rewrite validate_entries_ints in Hshape. congruence.
Qed.


(** ** Failures *)

(** Both are [ValueError]: a request for the absent [v9] and a request with
    an empty feature list. *)
Lemma model_not_found_is_value_error :
  ~ model_unavailable_is_distinct settings Demo.world Demo.start
      (Demo.request [PyFloat Demo.one] (Some "v9"))
      (Demo.request [] None).
Proof.
  intros Hclaim.
  by apply (Hclaim
    (Exn ValueError "Model version 'v9' not found")
    (Exn ValueError "Invalid features provided")).
Qed.

(** C3. For a prediction with valid features whose resolved version [e] is
    not cached: when the store has no pickle for [e], [predict] raises
    [ValueError] "Model version 'e' not found" (HTTP 400); when the pickle is
    there but cannot be loaded, it raises [RuntimeError] "Prediction failed:
    Failed to load model e: ..." (HTTP 500).  The two are of different
    classes.  Malformed features raise [ValueError] too, "Invalid features
    provided" (HTTP 400): the missing model and the malformed input share
    the class and differ in the message only. *)
Theorem load_failure_kinds cfg w request s :
  validate_features (features request) = inr true ->
  cache s !! effective (version request) s = None ->
  (os_path_exists w (get_model_path cfg (effective (version request) s))
     = false ->
   fst (predict_with_validation cfg w request s)
     = inl (Exn ValueError
              ("Model version '" ++ effective (version request) s
               ++ "' not found"))
   /\ fst (Main.predict cfg w request s)
      = inr (Main.HTTPException 400
               ("Model version '" ++ effective (version request) s
                ++ "' not found")))
  /\ (os_path_exists w (get_model_path cfg (effective (version request) s))
        = true ->
      readable w (get_model_path cfg (effective (version request) s))
        = false ->
      fst (predict_with_validation cfg w request s)
        = inl (Exn RuntimeError
                 ("Prediction failed: Failed to load model "
                  ++ effective (version request) s ++ ": "
                  ++ exn_str
                       (load_error w
                          (get_model_path cfg
                             (effective (version request) s)))))
      /\ fst (Main.predict cfg w request s)
         = inr (Main.HTTPException 500
                  ("Prediction failed: Failed to load model "
                   ++ effective (version request) s ++ ": "
                   ++ exn_str
                        (load_error w
                           (get_model_path cfg
                              (effective (version request) s))))))
  /\ (forall malformed,
        validate_features (features malformed) = inr false ->
        fst (predict_with_validation cfg w malformed s)
          = inl (Exn ValueError "Invalid features provided")
        /\ fst (Main.predict cfg w malformed s)
           = inr (Main.HTTPException 400 "Invalid features provided")).
Proof.
  intros Hv Hc.
  assert (Hc' : cache s
                  !! effective (Some (effective (version request) s)) s = None)
    by by rewrite effective_idem.
  repeat split.
  - rewrite predict_with_validation_accepted, make_prediction_result by done.
    rewrite get_model_miss_absent; [done | done |].
    by rewrite effective_idem.
  - rewrite post_predict_result.
    rewrite predict_with_validation_accepted, make_prediction_result by done.
    rewrite get_model_miss_absent; [done | done |].
    by rewrite effective_idem.
  - rewrite predict_with_validation_accepted, make_prediction_result by done.
    rewrite get_model_miss_unreadable; rewrite ?effective_idem; done.
  - rewrite post_predict_result.
    rewrite predict_with_validation_accepted, make_prediction_result by done.
    rewrite get_model_miss_unreadable; rewrite ?effective_idem; done.
  - by rewrite predict_with_validation_rejected.
  - rewrite post_predict_result.
    by rewrite predict_with_validation_rejected.
Qed.

Lemma load_failure_kinds_witness :
  fst (predict_with_validation settings Demo.world
         (Demo.request [PyFloat Demo.one] (Some "v3")) Demo.start)
  = inl (Exn RuntimeError
           "Prediction failed: Failed to load model v3: Ran out of input")
  /\ fst (predict_with_validation settings Demo.world
            (Demo.request [PyFloat Demo.one] (Some "v9")) Demo.start)
     = inl (Exn ValueError "Model version 'v9' not found").
Proof.
  split.
  - refine (proj1 (proj1 (proj2 (load_failure_kinds settings Demo.world
              (Demo.request [PyFloat Demo.one] (Some "v3")) Demo.start
              _ _)) _ _)); reflexivity.
  - refine (proj1 (proj1 (load_failure_kinds settings Demo.world
              (Demo.request [PyFloat Demo.one] (Some "v9")) Demo.start
              _ _) _)); reflexivity.
Defined.

(** C5. When [get_model] fails (the pickle is missing, or [joblib.load]
    raised), the registry is as it was before the call: the resolved version
    has no cache entry and no recorded load time.  A later [get_model] for
    it starts over: it checks the store again, calls [joblib.load] again
    whenever the pickle is there, and returns the new artifact once the
    pickle is readable.  In every state the process can reach, a cached
    handle comes from a logged [joblib.load] of its version's pickle. *)
Theorem failed_load_not_cached cfg w version s err s' :
  reachable cfg s ->
  Registry.get_model cfg w version s = (inl err, s') ->
  cache s' !! effective version s = None
  /\ durations s' !! effective version s = None
  /\ model_registry s' = model_registry s
  /\ (forall w',
        (os_path_exists w' (get_model_path cfg (effective version s)) = false ->
         Registry.get_model cfg w' version s'
           = (inl (Exn FileNotFoundError
                     ("Model not found: "
                      ++ get_model_path cfg (effective version s))), s'))
        /\ (os_path_exists w' (get_model_path cfg (effective version s)) = true ->
            joblib_calls (snd (Registry.get_model cfg w' version s'))
              = (joblib_calls s'
                 ++ [get_model_path cfg (effective version s)])%list)
        /\ (forall m,
              files w' (get_model_path cfg (effective version s))
                = Some (Artifact m) ->
              Registry.get_model cfg w' version s'
                = (inr {| oid := length (joblib_calls s'); obj := m |},
                   loaded cfg w' (effective version s) m s')))
  /\ (forall v h,
        cache s' !! v = Some h ->
        joblib_calls s' !! oid h = Some (get_model_path cfg v)).
Proof.
  intros Hreach Hg.
  pose proof (reachable_consistent cfg s Hreach) as Hs.
  assert (Hmiss : cache s !! effective version s = None).
  { destruct (cache s !! effective version s) as [h|] eqn:Hc; [| done].
    by rewrite (get_model_hit _ _ _ _ h) in Hg. }
  assert (Hreg : model_registry s' = model_registry s).
  { pose proof (get_model_touched cfg w version s) as Ht.
    rewrite Hg in Ht. simpl in Ht.
    inversion Ht as [Heq | m Hc Hf Heq | Hc Hr Heq]; [done | | done].
    rewrite (get_model_miss_ok _ _ _ m) in Hg by done. discriminate. }
  assert (Hs' : consistent cfg s').
  { pose proof (get_model_touched cfg w version s) as Ht.
    rewrite Hg in Ht. by eapply consistent_touched. }
  assert (Heff : effective version s' = effective version s).
  { unfold effective. by rewrite Hreg. }
  assert (Hmiss' : cache s' !! effective version s' = None).
  { by rewrite Heff, Hreg. }
  split; [by rewrite Hreg |].
  split; [rewrite Hreg; by apply Hs |].
  split; [done |].
  split; [| apply Hs'].
  intros w'. rewrite <- Heff. repeat split.
  - intros Hex. by apply get_model_miss_absent.
  - intros Hex.
    destruct (files w' (get_model_path cfg (effective version s')))
      as [[m|e]|] eqn:Hf.
    + by rewrite (get_model_miss_ok _ _ _ m).
    + rewrite get_model_miss_unreadable; try done.
      unfold readable. by rewrite Hf.
    + rewrite get_model_miss_unreadable; try done.
      unfold readable. by rewrite Hf.
  - intros m Hf. by apply get_model_miss_ok.
Qed.

Lemma failed_load_not_cached_witness :
  cache (snd (Registry.get_model settings Demo.world (Some "v3") Demo.start))
    !! effective (Some "v3") Demo.start = None.
Proof.
  refine (proj1 (failed_load_not_cached settings Demo.world (Some "v3")
            Demo.start
            (Exn RuntimeError "Failed to load model v3: Ran out of input")
            (snd (Registry.get_model settings Demo.world (Some "v3")
                    Demo.start))
            _ _)).
  - by exists [].
  - reflexivity.
Defined.

(** ** Input validation *)

Lemma feature_rejected_spec x :
  numpy_classifies x = true ->
  feature_rejected x = inr (negb (finite_number x)).
Proof.
  destruct x as [z|[sg|sg| |sg m e]|b|str|]; simpl; try done.
  intros Hz. unfold feature_rejected, np_isnan, np_isinf; simpl.
  by rewrite Hz.
Qed.

Lemma validate_loop_spec fs :
  forallb numpy_classifies fs = true ->
  validate_loop fs = inr (forallb finite_number fs).
Proof.
  induction fs as [|x fs IH]; [done |].
  simpl. intros [Hx Hfs]%andb_prop.
  rewrite feature_rejected_spec by done.
  destruct (finite_number x); simpl; [by apply IH | done].
Qed.

(** On lists that numpy can classify, [validate_features] accepts exactly
    the non-empty lists of finite numbers. *)
Lemma validate_features_spec fs :
  forallb numpy_classifies fs = true ->
  validate_features fs
    = inr (match fs with [] => false | _ => forallb finite_number fs end).
Proof.
  intros Hfs. destruct fs as [|x fs]; [done |].
  unfold validate_features. by apply validate_loop_spec.
Qed.

(** Rejected lists do not reach the registry, accepted ones go on to
    [make_prediction]. *)
Lemma predict_with_validation_spec cfg w request s :
  forallb numpy_classifies (features request) = true ->
  predict_with_validation cfg w request s =
    if match features request with
       | [] => false
       | _ => forallb finite_number (features request)
       end
    then make_prediction cfg w request s
    else (inl (Exn ValueError "Invalid features provided"), s).
Proof.
  intros Hfs. pose proof (validate_features_spec _ Hfs) as Hv.
  destruct (match features request with
            | [] => false
            | _ => forallb finite_number (features request)
            end).
  - by apply predict_with_validation_accepted.
  - by apply predict_with_validation_rejected.
Qed.

(** C6, at an integer that does not fit 64 bits: [validate_features] does
    not return.  [np.isnan] raises [TypeError] on the first such entry, so a
    list of finite numbers is not accepted, a list that also holds a NaN is
    not answered with "Invalid features provided", and the [/predict]
    handler, which catches [ValueError] and [RuntimeError] only, lets the
    [TypeError] through. *)
Theorem validate_features_huge_int :
  finite_number (PyInt (10 ^ 30)) = true
  /\ validate_features [PyInt (10 ^ 30)]
     = inl (ufunc_not_supported "isnan")
  /\ validate_features [PyInt (10 ^ 30); PyFloat S754_nan]
     = inl (ufunc_not_supported "isnan")
  /\ predict_with_validation settings Demo.world
       (Demo.request [PyInt (10 ^ 30)] None) Demo.start
     = (inl (ufunc_not_supported "isnan"), Demo.start)
  /\ fst (Main.predict settings Demo.world
            (Demo.request [PyInt (10 ^ 30)] None) Demo.start)
     = inl (ufunc_not_supported "isnan").
Proof. repeat split. Qed.

(** ** Several requests for one uncached version *)

(** [get_model] looks at its argument through the resolved version only. *)
Lemma get_model_effective cfg w version s :
  Registry.get_model cfg w version s
    = Registry.get_model cfg w (Some (effective version s)) s.
Proof.
  pose proof (effective_idem version s) as Hi. unfold effective in Hi.
  unfold Registry.get_model, bind, gets, effective.
  cbv beta iota zeta. by rewrite Hi.
Qed.

Section OneVersion.

Variables (cfg : Settings) (w : World) (e : string).

(** A call that asks for [e] does what [get_model] on [e] does, up to
    the metrics, and turns its result into its own answer. *)
Lemma serve_asks_for c s :
  asks_for e (active s) c = true ->
  same_registry (snd (Registry.get_model cfg w (Some e) s))
                (snd (serve cfg w c s))
  /\ fst (serve cfg w c s)
     = match fst (Registry.get_model cfg w (Some e) s) with
       | inl err => fail_with e err c
       | inr h => answer_with w e h c
       end
  /\ effective (Some e) s = e.
Proof.
  destruct c as [ov|v| |v|v|ov|request|request|v|ov| |]; try discriminate.
  - cbn [asks_for serve]. intros He%String.eqb_eq.
    fold (effective ov s) in He.
    assert (Hsame : Registry.get_model cfg w ov s
                    = Registry.get_model cfg w (Some e) s).
    { by rewrite get_model_effective, He. }
    rewrite fmap_py_after, fmap_py_result, Hsame.
    split; [done |]. split.
    + by destruct (Registry.get_model cfg w (Some e) s) as [[err|h] s1].
    + by rewrite <- He, effective_idem.
  - cbn [asks_for serve]. intros [He%String.eqb_eq Hv]%andb_prop.
    fold (effective (version request) s) in He.
    destruct (validate_features (features request)) as [err|[|]] eqn:Hval;
      try discriminate.
    rewrite fmap_py_after, fmap_py_result.
    rewrite predict_with_validation_accepted by done.
    rewrite make_prediction_result. rewrite <- He.
    split; [apply make_prediction_after |]. split.
    + destruct (Registry.get_model cfg w
                  (Some (effective (version request) s)) s)
        as [[err|h] s1]; simpl; [done |].
      by destruct (respond w (effective (version request) s) h request).
    + by rewrite effective_idem.
Qed.

(** Once [e] is cached, every further call is answered from the cache. *)
Lemma serve_all_cached h calls s :
  cache s !! e = Some h ->
  forallb (asks_for e (active s)) calls = true ->
  same_registry s (snd (serve_all cfg (map (pair w) calls) s))
  /\ fst (serve_all cfg (map (pair w) calls) s)
     = map (answer_with w e h) calls.
Proof.
  revert s. induction calls as [|c calls IH]; intros s Hc Hasks; [done |].
  simpl in Hasks. apply andb_prop in Hasks as [Hask Hrest].
  destruct (serve_asks_for c s Hask) as (Hsame & Hres & Heff).
  rewrite (get_model_hit _ _ _ _ h) in Hsame, Hres by by rewrite Heff.
  simpl in Hsame, Hres. simpl.
  destruct (serve cfg w c s) as [r s1]. simpl in Hsame, Hres.
  destruct Hsame as [Hreg Hjob].
  destruct (IH s1) as [Hsame' Hres'].
  - by rewrite Hreg.
  - by rewrite Hreg.
  - destruct (serve_all cfg (map (pair w) calls) s1) as [rs s2].
    simpl in *. split.
    + eapply same_registry_trans; [| done]. by split.
    + by rewrite Hres, Hres'.
Qed.

(** While the load of [e] keeps failing, every call repeats it. *)
Lemma serve_all_failing calls s :
  cache s !! e = None ->
  readable w (get_model_path cfg e) = false ->
  forallb (asks_for e (active s)) calls = true ->
  model_registry (snd (serve_all cfg (map (pair w) calls) s))
    = model_registry s
  /\ joblib_calls (snd (serve_all cfg (map (pair w) calls) s))
     = (joblib_calls s
        ++ if os_path_exists w (get_model_path cfg e)
           then replicate (length calls) (get_model_path cfg e)
           else [])%list
  /\ fst (serve_all cfg (map (pair w) calls) s)
     = map (fail_with e
              (if os_path_exists w (get_model_path cfg e)
               then Exn RuntimeError
                      ("Failed to load model " ++ e ++ ": "
                       ++ exn_str (load_error w (get_model_path cfg e)))
               else Exn FileNotFoundError
                      ("Model not found: " ++ get_model_path cfg e)))
           calls.
Proof.
  intros Hc Hr. revert s Hc.
  induction calls as [|c calls IH]; intros s Hc Hasks.
  - simpl. repeat split.
    by destruct (os_path_exists w (get_model_path cfg e));
      rewrite app_nil_r.
  - simpl in Hasks. apply andb_prop in Hasks as [Hask Hrest].
    destruct (serve_asks_for c s Hask) as (Hsame & Hres & Heff).
    simpl. destruct (os_path_exists w (get_model_path cfg e)) eqn:Hex.
    + rewrite get_model_miss_unreadable in Hsame, Hres
        by by rewrite Heff.
      rewrite Heff in Hsame, Hres. simpl in Hsame, Hres.
      destruct (serve cfg w c s) as [r s1]. simpl in Hsame, Hres.
      destruct Hsame as [Hreg Hjob]. simpl in Hreg, Hjob.
      destruct (IH s1) as (Hreg' & Hjob' & Hres').
      * by rewrite Hreg.
      * by rewrite Hreg.
      * destruct (serve_all cfg (map (pair w) calls) s1) as [rs s2].
        simpl in *. repeat split.
        -- congruence.
        -- rewrite Hjob', Hjob. by rewrite <- app_assoc.
        -- by rewrite Hres, Hres'.
    + rewrite get_model_miss_absent in Hsame, Hres by by rewrite Heff.
      rewrite Heff in Hsame, Hres. simpl in Hsame, Hres.
      destruct (serve cfg w c s) as [r s1]. simpl in Hsame, Hres.
      destruct Hsame as [Hreg Hjob].
      destruct (IH s1) as (Hreg' & Hjob' & Hres').
      * by rewrite Hreg.
      * by rewrite Hreg.
      * destruct (serve_all cfg (map (pair w) calls) s1) as [rs s2].
        simpl in *. repeat split.
        -- congruence.
        -- by rewrite Hjob', Hjob.
        -- by rewrite Hres, Hres'.
Qed.

End OneVersion.

(** Calls that are served one after another and all ask for one uncached
    version: the first load that succeeds is the only one. *)
Lemma serve_all_one_version cfg w e s c calls :
  forallb (asks_for e (active s)) (c :: calls) = true ->
  cache s !! e = None ->
  (forall m,
     files w (get_model_path cfg e) = Some (Artifact m) ->
     joblib_calls (snd (serve_all cfg (map (pair w) (c :: calls)) s))
       = (joblib_calls s ++ [get_model_path cfg e])%list
     /\ cache (snd (serve_all cfg (map (pair w) (c :: calls)) s)) !! e
        = Some {| oid := length (joblib_calls s); obj := m |}
     /\ fst (serve_all cfg (map (pair w) (c :: calls)) s)
        = map (answer_with w e {| oid := length (joblib_calls s); obj := m |})
              (c :: calls))
  /\ (readable w (get_model_path cfg e) = false ->
      cache (snd (serve_all cfg (map (pair w) (c :: calls)) s)) !! e = None
      /\ joblib_calls (snd (serve_all cfg (map (pair w) (c :: calls)) s))
         = (joblib_calls s
            ++ if os_path_exists w (get_model_path cfg e)
               then replicate (length (c :: calls)) (get_model_path cfg e)
               else [])%list
      /\ fst (serve_all cfg (map (pair w) (c :: calls)) s)
         = map (fail_with e
                  (if os_path_exists w (get_model_path cfg e)
                   then Exn RuntimeError
                          ("Failed to load model " ++ e ++ ": "
                           ++ exn_str (load_error w (get_model_path cfg e)))
                   else Exn FileNotFoundError
                          ("Model not found: " ++ get_model_path cfg e)))
               (c :: calls)).
Proof.
  intros Hasks Hc. split.
  - intros m Hf.
    pose proof Hasks as Hasks'. simpl in Hasks'.
    apply andb_prop in Hasks' as [Hask Hrest].
    destruct (serve_asks_for cfg w e c s Hask) as (Hsame & Hres & Heff).
    rewrite (get_model_miss_ok _ _ _ m) in Hsame, Hres
      by by rewrite Heff.
    rewrite Heff in Hsame. simpl in Hsame, Hres.
    cbn [map serve_all]. destruct (serve cfg w c s) as [r s1].
    simpl in Hsame, Hres. destruct Hsame as [Hreg Hjob].
    destruct (serve_all_cached cfg w e
                {| oid := length (joblib_calls s); obj := m |} calls s1)
      as [[Hreg' Hjob'] Hres'].
    + rewrite Hreg. simpl. by rewrite lookup_insert_eq.
    + by rewrite Hreg.
    + destruct (serve_all cfg (map (pair w) calls) s1) as [rs s2].
      simpl in *. repeat split.
      * by rewrite Hjob', Hjob.
      * rewrite Hreg', Hreg. simpl. by rewrite lookup_insert_eq.
      * by rewrite Hres, Hres'.
  - intros Hr.
    destruct (serve_all_failing cfg w e (c :: calls) s Hc Hr Hasks)
      as (Hreg & Hjob & Hres).
    repeat split; [by rewrite Hreg | done | done].
Qed.

(** ** Several requests in flight for one uncached version *)

Section EventLoop.

Variables (cfg : Settings) (w : World).

(** A turn given to a handler: the call is served from start to end. *)
Lemma loop_step_handler i pending fin s caller_id c :
  pending !! i = Some (caller_id, c) ->
  loop_step w i {| ready := task_of cfg <$> pending;
                   finished := fin;
                   process := s |}
  = {| ready := task_of cfg <$> delete i pending;
       finished := (fin ++ [(caller_id, fst (serve cfg w c s))])%list;
       process := snd (serve cfg w c s) |}.
Proof.
  intros Hi. unfold loop_step. cbn [ready process finished].
  rewrite list_lookup_fmap, Hi. cbn [fmap option_fmap option_map].
  cbn [task_of body handler caller fst snd].
  rewrite list_fmap_delete. by destruct (serve cfg w c s).
Qed.

Lemma loop_step_idle i pending fin s :
  pending !! i = None ->
  loop_step w i {| ready := task_of cfg <$> pending;
                   finished := fin;
                   process := s |}
  = {| ready := task_of cfg <$> pending; finished := fin; process := s |}.
Proof.
  intros Hi. unfold loop_step. cbn [ready].
  by rewrite list_lookup_fmap, Hi.
Qed.

(** Whatever the order of the turns, a run of the loop on handlers serves
    the picked calls one after another, each to its end. *)
Lemma run_loop_serve_all picks pending fin s :
  exists served rest,
    pending ≡ₚ (served ++ rest)%list
    /\ run_loop (map (pair w) picks)
         {| ready := task_of cfg <$> pending;
            finished := fin;
            process := s |}
       = {| ready := task_of cfg <$> rest;
            finished :=
              (fin ++ zip served.*1
                        (fst (serve_all cfg (map (pair w) served.*2) s)))%list;
            process := snd (serve_all cfg (map (pair w) served.*2) s) |}.
Proof.
  revert pending fin s.
  induction picks as [|i picks IH]; intros pending fin s.
  - exists [], pending. split; [done |]. simpl. by rewrite app_nil_r.
  - cbn [map run_loop fold_left fst snd].
    destruct (pending !! i) as [[caller_id c]|] eqn:Hi.
    + rewrite (loop_step_handler i pending fin s caller_id c Hi).
      destruct (IH (delete i pending)
                  (fin ++ [(caller_id, fst (serve cfg w c s))])%list
                  (snd (serve cfg w c s))) as (served & rest & Hperm & Hrun).
      exists ((caller_id, c) :: served), rest. split.
      * rewrite (delete_Permutation pending i (caller_id, c)) by done.
        simpl. by rewrite Hperm.
      * unfold run_loop in Hrun. rewrite Hrun. cbn [fmap list_fmap map fst snd].
        cbn [serve_all]. destruct (serve cfg w c s) as [r s1]. cbn [fst snd].
        destruct (serve_all cfg (map (pair w) served.*2) s1) as [rs s2].
        cbn [fst snd zip zip_with]. by rewrite <- app_assoc.
    + rewrite (loop_step_idle i pending fin s Hi). apply IH.
Qed.

Lemma zip_outcomes {A} (f : call -> A) (served : list (nat * call)) :
  zip served.*1 (map f served.*2) = (fun ic => (fst ic, f (snd ic))) <$> served.
Proof.
  induction served as [|[i c] served IH]; [done |].
  rewrite !fmap_cons. cbn [map zip_with fst snd]. f_equal. exact IH.
Qed.

(** Tasks that are served first come, first served: the loop finishes. *)
Lemma run_loop_in_order pending fin s :
  ready (run_loop (map (pair w) (replicate (length pending) 0))
           {| ready := task_of cfg <$> pending;
              finished := fin;
              process := s |}) = [].
Proof.
  revert fin s. induction pending as [|[caller_id c] pending IH]; intros fin s.
  - done.
  - cbn [length replicate map run_loop fold_left fst snd].
    rewrite (loop_step_handler 0 _ fin s caller_id c) by done.
    apply IH.
Qed.

End EventLoop.

Lemma numbered_calls (calls : list call) : (imap pair calls).*2 = calls.
Proof.
  assert (Hgen : forall (f : nat -> call -> nat * call),
            (forall i c, snd (f i c) = c) -> (imap f calls).*2 = calls).
  { induction calls as [|c calls IH]; intros f Hf; [done |].
    rewrite imap_cons, fmap_cons, Hf. f_equal. apply IH.
    intros i c'. apply Hf. }
  by apply Hgen.
Qed.

(** Two calls of [get_model("v3")], whose pickle is truncated, are in
    flight together: both are tasks of the loop before either has run.  The
    first to run fails and leaves nothing behind, so the second loads
    again: [joblib.load] is called twice. *)
Lemma failed_load_is_repeated :
  ~ single_flight settings Demo.world "v3" 2 Demo.start.
Proof.
  intros Hclaim. destruct (Hclaim eq_refl [0; 0] eq_refl) as [Hloads _].
  vm_compute in Hloads. discriminate.
Qed.

(** C1. Calls ([get_model], or predictions with valid features) that all
    resolve to one uncached version [e] and are in flight together, each a
    task of the event loop before any of them has run.  The loop can run
    them all (in the order they came, for one), and whatever the order it
    runs them in: when the pickle of [e] is readable, [joblib.load] is
    called exactly once, the artifact is cached, and every caller is
    answered from that one handle; when the load fails, nothing is cached,
    every caller repeats the attempt ([joblib.load] is called once per
    caller if the pickle exists, never if it does not), and every caller
    gets the same failure. *)
Theorem concurrent_calls_load_once cfg w e s c calls :
  forallb (asks_for e (active s)) (c :: calls) = true ->
  cache s !! e = None ->
  ready (run_loop (map (pair w) (replicate (length (c :: calls)) 0))
           (spawn cfg (c :: calls) s)) = []
  /\ forall picks,
       ready (run_loop (map (pair w) picks) (spawn cfg (c :: calls) s)) = [] ->
       (forall m,
          files w (get_model_path cfg e) = Some (Artifact m) ->
          joblib_calls
            (process (run_loop (map (pair w) picks)
                        (spawn cfg (c :: calls) s)))
            = (joblib_calls s ++ [get_model_path cfg e])%list
          /\ cache (process (run_loop (map (pair w) picks)
                              (spawn cfg (c :: calls) s))) !! e
             = Some {| oid := length (joblib_calls s); obj := m |}
          /\ length (finished (run_loop (map (pair w) picks)
                                 (spawn cfg (c :: calls) s)))
             = length (c :: calls)
          /\ forall i ci,
               (c :: calls) !! i = Some ci ->
               (i, answer_with w e
                     {| oid := length (joblib_calls s); obj := m |} ci)
               ∈ finished (run_loop (map (pair w) picks)
                             (spawn cfg (c :: calls) s)))
       /\ (readable w (get_model_path cfg e) = false ->
           cache (process (run_loop (map (pair w) picks)
                             (spawn cfg (c :: calls) s))) !! e = None
           /\ joblib_calls
                (process (run_loop (map (pair w) picks)
                            (spawn cfg (c :: calls) s)))
              = (joblib_calls s
                 ++ if os_path_exists w (get_model_path cfg e)
                    then replicate (length (c :: calls)) (get_model_path cfg e)
                    else [])%list
           /\ length (finished (run_loop (map (pair w) picks)
                                  (spawn cfg (c :: calls) s)))
              = length (c :: calls)
           /\ forall i ci,
                (c :: calls) !! i = Some ci ->
                (i, fail_with e
                      (if os_path_exists w (get_model_path cfg e)
                       then Exn RuntimeError
                              ("Failed to load model " ++ e ++ ": "
                               ++ exn_str
                                    (load_error w (get_model_path cfg e)))
                       else Exn FileNotFoundError
                              ("Model not found: " ++ get_model_path cfg e))
                      ci)
                ∈ finished (run_loop (map (pair w) picks)
                              (spawn cfg (c :: calls) s))).
Proof.
  intros Hasks Hc. split.
  { unfold spawn.
    rewrite <- (length_imap pair (c :: calls)).
    apply run_loop_in_order. }
  intros picks. unfold spawn.
  destruct (run_loop_serve_all cfg w picks (imap pair (c :: calls)) [] s)
    as (served & rest & Hperm & ->).
  cbn [ready process finished]. intros Hrest%fmap_nil_inv. subst rest.
  rewrite app_nil_r in Hperm. rewrite app_nil_l.
  assert (Hcalls : served.*2 ≡ₚ c :: calls).
  { rewrite <- Hperm. by rewrite numbered_calls. }
  assert (Hlen : length served.*2 = length (c :: calls)) by by rewrite Hcalls.
  assert (Hasks' : forallb (asks_for e (active s)) served.*2 = true).
  { apply forallb_forall. intros x Hx%list_elem_of_In.
    rewrite Hcalls in Hx. apply list_elem_of_In in Hx.
    by apply (proj1 (forallb_forall _ _) Hasks). }
  assert (Hmem : forall (f : call -> exn + value) i ci,
            (c :: calls) !! i = Some ci ->
            (i, f ci) ∈ (fun ic => (fst ic, f (snd ic))) <$> served).
  { intros f i ci Hi. apply list_elem_of_fmap. exists (i, ci). split; [done |].
    rewrite <- Hperm. by apply (elem_of_lookup_imap_2 pair). }
  destruct served.*2 as [|c0 cs] eqn:Hserved; [discriminate |].
  destruct (serve_all_one_version cfg w e s c0 cs Hasks' Hc) as [Hok Hfail].
  split.
  - intros m Hf. destruct (Hok m Hf) as (Hjob & Hcache & Hres).
    split; [done |]. split; [done |].
    rewrite Hres, <- Hserved, zip_outcomes, length_fmap.
    split; [| by apply Hmem].
    by rewrite <- Hlen, <- Hserved, length_fmap.
  - intros Hr. destruct (Hfail Hr) as (Hcache & Hjob & Hres).
    rewrite Hlen in Hjob.
    split; [done |]. split; [done |].
    rewrite Hres, <- Hserved, zip_outcomes, length_fmap.
    split; [| by apply Hmem].
    by rewrite <- Hlen, <- Hserved, length_fmap.
Qed.

Lemma concurrent_calls_load_once_witness :
  joblib_calls
    (process (run_loop (map (pair Demo.world) [2; 0; 0])
                (spawn settings
                   [GetModel (Some "v1");
                    Predict (Demo.request [PyFloat Demo.one] (Some "v1"));
                    GetModel None]
                   Demo.start)))
  = ["models/v1/model.pkl"].
Proof.
  refine (proj1 (proj1 (proj2 (concurrent_calls_load_once settings Demo.world
            "v1" Demo.start (GetModel (Some "v1"))
            [Predict (Demo.request [PyFloat Demo.one] (Some "v1"));
             GetModel None]
            _ _) [2; 0; 0] _) (Demo.regressor Demo.one) _)); reflexivity.
Defined.

(** * Further properties of the code *)

(** ** app/config.py *)

Lemma ascii_compare_trans x y z :
  Ascii.compare x y <> Gt -> Ascii.compare y z <> Gt ->
  Ascii.compare x z <> Gt
  /\ (Ascii.compare x z = Eq ->
      Ascii.compare x y = Eq /\ Ascii.compare y z = Eq).
Proof.
  unfold Ascii.compare.
  rewrite !N.compare_gt_iff, !N.compare_eq_iff. lia.
Qed.

Lemma str_le_total : Total str_le.
Proof. intros a b. apply String.leb_total. Qed.

Lemma str_le_trans : Transitive str_le.
Proof.
  unfold str_le, String.leb. intros a.
  induction a as [|x a IH]; intros [|y b] [|z c]; simpl; try done.
  intros Hab Hbc.
  destruct (ascii_compare_trans x y z) as [Hgt Heq].
  - by destruct (Ascii.compare x y).
  - by destruct (Ascii.compare y z).
  - destruct (Ascii.compare x z) eqn:Exz; [| done | done].
    destruct (Heq eq_refl) as [Exy Eyz]. rewrite Exy in Hab.
    rewrite Eyz in Hbc. by apply (IH b c).
Qed.

(** X1. Whatever [get_available_versions] returns is in ascending order,
    and holds exactly the entries of the models directory whose pickle path
    exists (as many times as the directory lists them). *)
Theorem catalogue_sorted_and_exact cfg w available_versions :
  get_available_versions cfg w = inr available_versions ->
  StronglySorted str_le available_versions
  /\ (forall v,
        v ∈ available_versions <->
        (exists items,
           dirs w (models_dir cfg) = Some items /\ v ∈ items)
        /\ os_path_exists w (get_model_path cfg v) = true)
  /\ length available_versions
     = length (filter (fun item =>
                         os_path_exists w (get_model_path cfg item) = true)
                      (default [] (dirs w (models_dir cfg)))).
Proof.
  unfold get_available_versions, os_listdir.
  destruct (os_path_exists w (models_dir cfg)) eqn:Hex; simpl.
  - destruct (dirs w (models_dir cfg)) as [items|] eqn:Hd.
    + intros [= <-]. unfold sorted. split; [| split].
      * apply (@StronglySorted_merge_sort _ str_le _ str_le_trans
                 str_le_total).
      * intros v. rewrite merge_sort_Permutation, list_elem_of_filter.
        split.
        -- intros [Hp Hin]. split; [by exists items | done].
        -- intros [(items' & [= <-] & Hin) Hp]. by split.
      * simpl. by rewrite merge_sort_Permutation.
    + by destruct (files w (models_dir cfg)).
  - intros [= <-]. split; [constructor | split].
    + intros v. rewrite elem_of_nil. split; [done |].
      intros [(items & Hd & _) _]. unfold os_path_exists in Hex.
      rewrite Hd in Hex. by destruct (files w (models_dir cfg)).
    + unfold os_path_exists in Hex.
      destruct (files w (models_dir cfg)), (dirs w (models_dir cfg));
        try discriminate.
      done.
Qed.

Lemma catalogue_sorted_and_exact_witness :
  StronglySorted str_le ["v1"; "v2"; "v3"].
Proof.
  refine (proj1 (catalogue_sorted_and_exact settings Demo.world
                   ["v1"; "v2"; "v3"] _)).
  reflexivity.
Defined.

(** X2. When the models directory does not exist, the catalogue is empty
    and nothing is raised.  When its path is a regular file,
    [get_available_versions] raises [NotADirectoryError], and the admin
    operations that list the catalogue (switch, health, active version)
    raise the same error and leave the process state as it was. *)
Theorem catalogue_without_directory cfg w :
  (os_path_exists w (models_dir cfg) = false ->
   get_available_versions cfg w = inr [])
  /\ (files w (models_dir cfg) <> None -> dirs w (models_dir cfg) = None ->
      exists e,
        exn_type e = NotADirectoryError
        /\ get_available_versions cfg w = inl e
        /\ forall v s,
             Admin.set_active_version cfg w v s = (inl e, s)
             /\ Admin.get_health_status cfg w s = (inl e, s)
             /\ Info.admin_get_active_version cfg w s = (inl e, s)).
Proof.
  split.
  - intros Hex. unfold get_available_versions. by rewrite Hex.
  - intros Hf Hd.
    exists (Exn NotADirectoryError
              (strerror "[Errno 20] Not a directory" (models_dir cfg))).
    assert (Ha : get_available_versions cfg w
                 = inl (Exn NotADirectoryError
                          (strerror "[Errno 20] Not a directory"
                             (models_dir cfg)))).
    { unfold get_available_versions, os_listdir, os_path_exists.
      rewrite Hd. by destruct (files w (models_dir cfg)). }
    split; [done |]. split; [done |].
    intros v s.
    unfold Admin.set_active_version, Admin.get_health_status,
      Info.admin_get_active_version, bind, lift, Registry.get_active_version,
      gets.
    by rewrite Ha.
Qed.

Lemma catalogue_without_directory_witness :
  get_available_versions
    {| models_dir := "nowhere"; default_version := "v1" |} Demo.world
  = inr [].
Proof.
  refine (proj1 (catalogue_without_directory
                   {| models_dir := "nowhere"; default_version := "v1" |}
                   Demo.world) _).
  reflexivity.
Defined.

Lemma endswith_sep_app a b :
  b <> "" -> endswith_sep (a ++ b) = endswith_sep b.
Proof.
  intros Hb. induction a as [|c a IH]; [done |].
  simpl. rewrite IH.
  destruct (a ++ b) eqn:Hab; [| done].
  destruct a; [exfalso; by apply Hb | discriminate].
Qed.

Lemma append_sep_assoc (d v t : string) :
  (d ++ String "/" v) ++ t = d ++ String "/" (v ++ t).
Proof.
  induction d as [|c d IH]; [done |].
  change (String c ((d ++ String "/" v) ++ t)
          = String c (d ++ String "/" (v ++ t))).
  by rewrite IH.
Qed.

(** X3. For a models directory and a version name that are non-empty, with
    a name that does not start with a slash and a directory that does not
    end with one, the pickle path is [<models_dir>/<version>/model.pkl]
    (with no slash doubled when the name already ends with one). *)
Theorem model_path_of_plain_name cfg v :
  models_dir cfg <> "" ->
  endswith_sep (models_dir cfg) = false ->
  v <> "" ->
  startswith_sep v = false ->
  get_model_path cfg v
    = if endswith_sep v
      then models_dir cfg ++ "/" ++ v ++ "model.pkl"
      else models_dir cfg ++ "/" ++ v ++ "/model.pkl".
Proof.
  intros Hdir Hend Hv Hstart.
  unfold get_model_path, os_path_join. simpl. unfold join2 at 2.
  rewrite Hstart, Hend. simpl.
  destruct (String.eqb_spec (models_dir cfg) ""); [done |].
  unfold join2. simpl.
  change (models_dir cfg ++ "/" ++ v) with (models_dir cfg ++ String "/" v).
  destruct (String.eqb_spec (models_dir cfg ++ String "/" v) "") as [He|_].
  { destruct (models_dir cfg); [done | discriminate]. }
  rewrite (endswith_sep_app (models_dir cfg) (String "/" v)) by done.
  assert (Hsame : endswith_sep (String "/" v) = endswith_sep v).
  { simpl. by destruct v. }
  rewrite Hsame.
  destruct (endswith_sep v); by rewrite append_sep_assoc.
Qed.

Lemma model_path_of_plain_name_witness :
  get_model_path settings "v7" = "models/v7/model.pkl".
Proof.
  refine (model_path_of_plain_name settings "v7" _ _ _ _);
    [discriminate | reflexivity | discriminate | reflexivity].
Defined.

(** X4. A version name that starts with a slash replaces the models
    directory in the pickle path: the path is the same under every
    configuration, so the registry's own [set_active_version] and
    [get_model] look outside the models directory for such a name. *)
Theorem model_path_of_absolute_name cfg cfg' v :
  startswith_sep v = true ->
  get_model_path cfg v = get_model_path cfg' v
  /\ get_model_path cfg v
     = if endswith_sep v then v ++ "model.pkl" else v ++ "/model.pkl".
Proof.
  intros Hstart.
  assert (Hpath : forall c,
            get_model_path c v
            = if endswith_sep v then v ++ "model.pkl" else v ++ "/model.pkl").
  { intros c. unfold get_model_path, os_path_join. simpl.
    unfold join2 at 2. rewrite Hstart. simpl. unfold join2. simpl.
    destruct (String.eqb_spec v "") as [->|_]; [discriminate |].
    done. }
  by rewrite !Hpath.
Qed.

Lemma model_path_of_absolute_name_witness :
  get_model_path settings "/tmp/m" = "/tmp/m/model.pkl".
Proof.
  refine (proj2 (model_path_of_absolute_name settings settings "/tmp/m" _)).
  reflexivity.
Defined.

(** ** app/metrics.py *)

Lemma reset_lookup (names : list string) (g : gmap string Z) (u : string) :
  fold_left (fun g v => <[v := 0%Z]> g) names g !! u
    = if bool_decide (u ∈ names) then Some 0%Z else g !! u.
Proof.
  revert g. induction names as [|n names IH]; intros g; [done |].
  simpl. rewrite IH.
  destruct (decide (u ∈ names)) as [Hin|Hout].
  - rewrite !bool_decide_eq_true_2; [done | by right | done].
  - rewrite (bool_decide_eq_false_2 _ Hout).
    destruct (decide (n = u)) as [->|Hne].
    + rewrite lookup_insert_eq. by rewrite bool_decide_eq_true_2 by by left.
    + rewrite lookup_insert_ne by done.
      rewrite bool_decide_eq_false_2; [done |].
      intros [->|Hin']%elem_of_cons; done.
Qed.

Lemma gauge_lookup v s u :
  MODEL_VERSION_ACTIVE (metrics (snd (metrics_set_active_version v s))) !! u
    = if decide (v = u) then Some 1%Z
      else if bool_decide (u ∈ common_version_names) then Some 0%Z
      else MODEL_VERSION_ACTIVE (metrics s) !! u.
Proof.
  simpl. destruct (decide (v = u)) as [->|Hne].
  - apply lookup_insert_eq.
  - rewrite lookup_insert_ne by done.
    apply (reset_lookup common_version_names).
Qed.

(** X5. [metrics.set_active_version(v)] leaves the gauge of [v] at 1 and
    the gauges of the other common names ([v1] to [v5]) at 0; the gauge of
    any other name keeps the value it had, and nothing else in the process
    changes. *)
Theorem gauge_after_set_active_version v s :
  MODEL_VERSION_ACTIVE (metrics (snd (metrics_set_active_version v s))) !! v
    = Some 1%Z
  /\ (forall u, u ∈ common_version_names -> u <> v ->
        MODEL_VERSION_ACTIVE (metrics (snd (metrics_set_active_version v s)))
          !! u = Some 0%Z)
  /\ (forall u, u ∉ common_version_names -> u <> v ->
        MODEL_VERSION_ACTIVE (metrics (snd (metrics_set_active_version v s)))
          !! u = MODEL_VERSION_ACTIVE (metrics s) !! u)
  /\ same_registry s (snd (metrics_set_active_version v s))
  /\ MODEL_PREDICTION_REQUESTS (metrics (snd (metrics_set_active_version v s)))
     = MODEL_PREDICTION_REQUESTS (metrics s)
  /\ MODEL_PREDICTION_ERRORS (metrics (snd (metrics_set_active_version v s)))
     = MODEL_PREDICTION_ERRORS (metrics s).
Proof.
  split; [| split; [| split; [| done]]].
  - rewrite gauge_lookup. by destruct (decide (v = v)).
  - intros u Hin Hne. rewrite gauge_lookup.
    destruct (decide (v = u)); [congruence |].
    by rewrite bool_decide_eq_true_2.
  - intros u Hout Hne. rewrite gauge_lookup.
    destruct (decide (v = u)); [congruence |].
    by rewrite bool_decide_eq_false_2.
Qed.

(** X6. After a switch to a version whose name is not one of the common
    names and then a switch to another version, the gauge of the first is
    still 1: the metrics show two active versions, while
    [get_active_version] returns the second. *)
Theorem gauge_keeps_uncommon_version cfg w w' u v s :
  u ∉ common_version_names ->
  u <> v ->
  os_path_exists w (get_model_path cfg u) = true ->
  os_path_exists w' (get_model_path cfg v) = true ->
  MODEL_VERSION_ACTIVE
    (metrics (snd (Registry.set_active_version cfg w' v
                     (snd (Registry.set_active_version cfg w u s))))) !! u
    = Some 1%Z
  /\ MODEL_VERSION_ACTIVE
       (metrics (snd (Registry.set_active_version cfg w' v
                        (snd (Registry.set_active_version cfg w u s))))) !! v
     = Some 1%Z
  /\ Registry.get_active_version
       (snd (Registry.set_active_version cfg w' v
               (snd (Registry.set_active_version cfg w u s))))
     = (inr v,
        snd (Registry.set_active_version cfg w' v
               (snd (Registry.set_active_version cfg w u s)))).
Proof.
  intros Hout Hne Hu Hv.
  rewrite (set_active_version_present cfg w u s Hu). cbn [snd].
  rewrite (set_active_version_present cfg w' v _ Hv). cbn [snd].
  unfold activated at 1 3 5.
  split; [| split; [| done]].
  - rewrite gauge_lookup. destruct (decide (v = u)); [congruence |].
    rewrite bool_decide_eq_false_2 by done.
    cbn [metrics]. unfold activated. rewrite gauge_lookup.
    by destruct (decide (u = u)).
  - rewrite gauge_lookup. by destruct (decide (v = v)).
Qed.

Lemma gauge_keeps_uncommon_version_witness :
  MODEL_VERSION_ACTIVE
    (metrics (snd (Registry.set_active_version settings canary_world "v1"
                     (snd (Registry.set_active_version settings canary_world
                             "canary" Demo.start))))) !! "canary"
  = Some 1%Z.
Proof.
  refine (proj1 (gauge_keeps_uncommon_version settings canary_world
                   canary_world "canary" "v1" Demo.start _ _ _ _)).
  - apply (bool_decide_eq_true_1 _). reflexivity.
  - discriminate.
  - reflexivity.
  - reflexivity.
Defined.

(** ** app/model_loader.py and app/admin.py: switching *)

(** X7. A switch never loads and never evicts: whether it goes through or
    not, at registry or at admin level, the cache, the load times and the
    log of [joblib.load] calls are what they were, and so are the request,
    error, latency and load-time metrics. *)
Theorem switch_does_not_load cfg w v s c :
  c = SetActiveVersion v \/ c = AdminSetActiveVersion v ->
  cache (snd (serve cfg w c s)) = cache s
  /\ durations (snd (serve cfg w c s)) = durations s
  /\ joblib_calls (snd (serve cfg w c s)) = joblib_calls s
  /\ MODEL_LOAD_TIME (metrics (snd (serve cfg w c s)))
     = MODEL_LOAD_TIME (metrics s)
  /\ MODEL_PREDICTION_REQUESTS (metrics (snd (serve cfg w c s)))
     = MODEL_PREDICTION_REQUESTS (metrics s)
  /\ MODEL_PREDICTION_ERRORS (metrics (snd (serve cfg w c s)))
     = MODEL_PREDICTION_ERRORS (metrics s)
  /\ MODEL_INFERENCE_LATENCY (metrics (snd (serve cfg w c s)))
     = MODEL_INFERENCE_LATENCY (metrics s).
Proof.
  intros [-> | ->]; cbn [serve]; rewrite fmap_py_after.
  - destruct (os_path_exists w (get_model_path cfg v)) eqn:Hex.
    + by rewrite set_active_version_present.
    + by rewrite set_active_version_absent.
  - pose proof (admin_set_active_version_cases cfg w v s) as Hc.
    destruct (get_available_versions cfg w) as [e|available_versions].
    + by rewrite Hc.
    + by destruct (bool_decide (v ∈ available_versions)); rewrite Hc.
Qed.

Lemma switch_does_not_load_witness :
  joblib_calls (snd (serve settings Demo.world (AdminSetActiveVersion "v2")
                       Demo.start))
  = joblib_calls Demo.start.
Proof.
  refine (proj1 (proj2 (proj2
            (switch_does_not_load settings Demo.world "v2" Demo.start
               (AdminSetActiveVersion "v2") _)))).
  by right.
Defined.

(** X8. The admin switch goes through exactly for the names the catalogue
    lists.  Its response always reports the version that is active after
    the call, and it never carries the "Failed to switch" message: a listed
    name has its pickle, so the registry does not refuse it. *)
Theorem admin_switch_iff_listed cfg w v s r s' :
  Admin.set_active_version cfg w v s = (inr r, s') ->
  (Admin.success r = true <->
   exists available_versions,
     get_available_versions cfg w = inr available_versions
     /\ v ∈ available_versions)
  /\ Admin.active_version r = active s'
  /\ (Admin.success r = true -> active s' = v)
  /\ (Admin.success r = false -> s' = s)
  /\ Admin.message_of r <> Admin.FailedToSwitch v.
Proof.
  pose proof (admin_set_active_version_cases cfg w v s) as Hc.
  destruct (get_available_versions cfg w) as [e|available_versions] eqn:Ha.
  - rewrite Hc. discriminate.
  - destruct (bool_decide (v ∈ available_versions)) eqn:Hin; rewrite Hc.
    + apply bool_decide_eq_true in Hin. intros [= <- <-]. simpl.
      repeat split; try done. by exists available_versions.
    + apply bool_decide_eq_false in Hin. intros [= <- <-]. simpl.
      repeat split; try done.
      intros (l & [= <-] & Hin'). done.
Qed.

Lemma admin_switch_iff_listed_witness :
  Admin.active_version
    {| Admin.success := true;
       Admin.message_of := Admin.Switched "v3";
       Admin.active_version := "v3" |}
  = active (snd (Admin.set_active_version settings Demo.world "v3"
                   Demo.start)).
Proof.
  refine (proj1 (proj2
            (admin_switch_iff_listed settings Demo.world "v3" Demo.start
               {| Admin.success := true;
                  Admin.message_of := Admin.Switched "v3";
                  Admin.active_version := "v3" |}
               (snd (Admin.set_active_version settings Demo.world "v3"
                       Demo.start)) _))).
  reflexivity.
Defined.

(** ** app/model_loader.py: the cache *)

(** X9. After a [get_model] that returned, [is_version_loaded] is true for
    the resolved version and [get_load_time] has a value for it; when the
    version was not cached before, that value is the duration measured
    around this load, and the same duration was observed once more in the
    load-time histogram. *)
Theorem loaded_after_get_model cfg w ov s h s' :
  reachable cfg s ->
  Registry.get_model cfg w ov s = (inr h, s') ->
  Registry.is_version_loaded (effective ov s) s' = (inr true, s')
  /\ (exists t,
        Registry.get_load_time (effective ov s) s' = (inr (Some t), s'))
  /\ (cache s !! effective ov s = None ->
      Registry.get_load_time (effective ov s) s'
        = (inr (Some (load_seconds w)), s')
      /\ MODEL_LOAD_TIME (metrics s')
         = (MODEL_LOAD_TIME (metrics s)
            ++ [(effective ov s, load_seconds w)])%list)
  /\ (forall h0, cache s !! effective ov s = Some h0 -> h = h0 /\ s' = s).
Proof.
  intros Hreach Hg.
  pose proof (reachable_consistent cfg s Hreach) as Hs.
  assert (Hs' : consistent cfg s').
  { pose proof (get_model_touched cfg w ov s) as Ht. rewrite Hg in Ht.
    by eapply consistent_touched. }
  pose proof (get_model_returns_cached _ _ _ _ _ _ Hg) as Hc'.
  unfold Registry.is_version_loaded, Registry.get_load_time, gets.
  split; [| split; [| split]].
  - rewrite Hc'. by rewrite bool_decide_eq_true_2.
  - destruct (durations s' !! effective ov s) as [t|] eqn:Hd.
    + by exists t.
    + apply Hs' in Hd. congruence.
  - intros Hmiss.
    destruct (files w (get_model_path cfg (effective ov s)))
      as [[m|e]|] eqn:Hf.
    + rewrite (get_model_miss_ok _ _ _ m) in Hg by done.
      injection Hg as <- <-. simpl. by rewrite lookup_insert_eq.
    + destruct (os_path_exists w (get_model_path cfg (effective ov s)))
        eqn:Hex.
      * rewrite get_model_miss_unreadable in Hg; try done.
        unfold readable. by rewrite Hf.
      * by rewrite get_model_miss_absent in Hg.
    + destruct (os_path_exists w (get_model_path cfg (effective ov s)))
        eqn:Hex.
      * rewrite get_model_miss_unreadable in Hg; try done.
        unfold readable. by rewrite Hf.
      * by rewrite get_model_miss_absent in Hg.
  - intros h0 Hhit. rewrite (get_model_hit _ _ _ _ h0) in Hg by done.
    by injection Hg as <- <-.
Qed.

Lemma loaded_after_get_model_witness :
  Registry.is_version_loaded (effective (Some "v2") Demo.start)
    (snd (Registry.get_model settings Demo.world (Some "v2") Demo.start))
  = (inr true,
     snd (Registry.get_model settings Demo.world (Some "v2") Demo.start)).
Proof.
  refine (proj1 (loaded_after_get_model settings Demo.world (Some "v2")
            Demo.start {| oid := 0; obj := Demo.regressor Demo.half |}
            (snd (Registry.get_model settings Demo.world (Some "v2")
                    Demo.start)) _ _)).
  - by exists [].
  - reflexivity.
Defined.

(** X10. [clear_cache()] (and [clear_cache("")]) empties the cache:
    afterwards no version is loaded and none has a load time, while the
    active version, the metrics and the load log are untouched.  The next
    [get_model] for a version whose pickle is readable loads it again and
    returns a new handle. *)
Theorem clear_all_then_reload cfg ov s :
  truthy ov = false ->
  (forall v,
     Registry.is_version_loaded v (snd (Registry.clear_cache ov s))
       = (inr false, snd (Registry.clear_cache ov s))
     /\ Registry.get_load_time v (snd (Registry.clear_cache ov s))
        = (inr None, snd (Registry.clear_cache ov s)))
  /\ fst (Registry.clear_cache ov s) = inr tt
  /\ active (snd (Registry.clear_cache ov s)) = active s
  /\ metrics (snd (Registry.clear_cache ov s)) = metrics s
  /\ joblib_calls (snd (Registry.clear_cache ov s)) = joblib_calls s
  /\ (forall w version m,
        files w (get_model_path cfg (effective version s))
          = Some (Artifact m) ->
        Registry.get_model cfg w version (snd (Registry.clear_cache ov s))
          = (inr {| oid := length (joblib_calls s); obj := m |},
             loaded cfg w (effective version s) m
               (snd (Registry.clear_cache ov s)))).
Proof.
  intros Hf. unfold Registry.clear_cache. rewrite Hf.
  unfold bind, update_registry, modify. simpl.
  split; [intros v; split |].
  - unfold Registry.is_version_loaded, gets. simpl.
    rewrite bool_decide_eq_false_2; [done |].
    rewrite lookup_empty. by intros [? ?].
  - unfold Registry.get_load_time, gets. simpl. by rewrite lookup_empty.
  - repeat split. intros w version m Hm.
    by rewrite (get_model_miss_ok cfg w version m).
Qed.

Lemma clear_all_then_reload_witness :
  Registry.is_version_loaded "v1"
    (snd (Registry.clear_cache None
            (snd (serve settings Demo.world (GetModel (Some "v1"))
                    Demo.start))))
  = (inr false,
     snd (Registry.clear_cache None
            (snd (serve settings Demo.world (GetModel (Some "v1"))
                    Demo.start)))).
Proof.
  refine (proj1 (proj1 (clear_all_then_reload settings None
            (snd (serve settings Demo.world (GetModel (Some "v1"))
                    Demo.start)) _) "v1")).
  reflexivity.
Defined.

(** X11. [clear_cache(v)] for a non-empty [v] removes the entry and the
    load time of [v] and of no other version; the active version, the
    metrics and the load log are untouched, and no error is raised whether
    or not [v] was cached. *)
Theorem clear_one_version v s :
  v <> "" ->
  fst (Registry.clear_cache (Some v) s) = inr tt
  /\ cache (snd (Registry.clear_cache (Some v) s)) !! v = None
  /\ durations (snd (Registry.clear_cache (Some v) s)) !! v = None
  /\ (forall u, u <> v ->
        cache (snd (Registry.clear_cache (Some v) s)) !! u = cache s !! u
        /\ durations (snd (Registry.clear_cache (Some v) s)) !! u
           = durations s !! u)
  /\ active (snd (Registry.clear_cache (Some v) s)) = active s
  /\ metrics (snd (Registry.clear_cache (Some v) s)) = metrics s
  /\ joblib_calls (snd (Registry.clear_cache (Some v) s)) = joblib_calls s.
Proof.
  intros Hv.
  assert (Htruthy : truthy (Some v) = true).
  { unfold truthy. by destruct (String.eqb_spec v ""). }
  unfold Registry.clear_cache. rewrite Htruthy.
  unfold bind, update_registry, modify. simpl.
  repeat split; try apply lookup_delete_eq.
  - by rewrite lookup_delete_ne.
  - by rewrite lookup_delete_ne.
Qed.

Lemma clear_one_version_witness :
  cache (snd (Registry.clear_cache (Some "v1")
                (snd (serve settings Demo.world (GetModel (Some "v1"))
                        Demo.start)))) !! "v1" = None.
Proof.
  refine (proj1 (proj2 (clear_one_version "v1"
            (snd (serve settings Demo.world (GetModel (Some "v1"))
                    Demo.start)) _))).
  discriminate.
Defined.

(** X12. Once a version is cached, requests for it do not look at the
    store: [get_model] returns the cached handle without any state change,
    and a prediction on it is the same in any two worlds whose clocks
    measure the same latency, so removing or replacing the pickle has no
    effect before an eviction. *)
Theorem cached_version_ignores_store cfg w w' request s h :
  cache s !! effective (version request) s = Some h ->
  predict_seconds w = predict_seconds w' ->
  Registry.get_model cfg w (version request) s = (inr h, s)
  /\ Registry.get_model cfg w' (version request) s = (inr h, s)
  /\ make_prediction cfg w request s = make_prediction cfg w' request s
  /\ predict_with_validation cfg w request s
     = predict_with_validation cfg w' request s
  /\ joblib_calls (snd (predict_with_validation cfg w request s))
     = joblib_calls s.
Proof.
  intros Hc Hclock.
  assert (Hc' : cache s !! effective (Some (effective (version request) s)) s
                = Some h) by by rewrite effective_idem.
  assert (Hm : make_prediction cfg w request s
               = make_prediction cfg w' request s).
  { unfold make_prediction, bind, try_except, Registry.get_active_version,
      gets. cbv beta iota zeta.
    change (py_or (version request) (active s))
      with (effective (version request) s).
    rewrite !(get_model_hit _ _ _ _ h) by done.
    by rewrite Hclock. }
  split; [by apply get_model_hit |].
  split; [by apply get_model_hit |].
  split; [done |].
  assert (Hp : predict_with_validation cfg w request s
               = predict_with_validation cfg w' request s).
  { destruct (validate_features (features request)) as [e|[|]] eqn:Hv.
    - by rewrite !(predict_with_validation_raised _ _ _ e).
    - by rewrite !predict_with_validation_accepted.
    - by rewrite !predict_with_validation_rejected. }
  split; [done |].
  destruct (validate_features (features request)) as [e|[|]] eqn:Hv.
  - by rewrite (predict_with_validation_raised _ _ _ e).
  - rewrite predict_with_validation_accepted by done.
    destruct (make_prediction_after cfg w request s) as [_ Hjob].
    rewrite (get_model_hit _ _ _ _ h) in Hjob by done. exact Hjob.
  - by rewrite predict_with_validation_rejected.
Qed.

Lemma cached_version_ignores_store_witness :
  make_prediction settings Demo.world (Demo.request [PyInt 1] (Some "v1"))
    (snd (serve settings Demo.world (GetModel (Some "v1")) Demo.start))
  = make_prediction settings canary_world
      (Demo.request [PyInt 1] (Some "v1"))
      (snd (serve settings Demo.world (GetModel (Some "v1")) Demo.start)).
Proof.
  refine (proj1 (proj2 (proj2
            (cached_version_ignores_store settings Demo.world canary_world
               (Demo.request [PyInt 1] (Some "v1"))
               (snd (serve settings Demo.world (GetModel (Some "v1"))
                       Demo.start))
               {| oid := 0; obj := Demo.regressor Demo.one |} _ _))));
    reflexivity.
Defined.

Lemma touched_keeps cfg w e s s' v h :
  touched cfg w e s s' -> cache s !! v = Some h -> cache s' !! v = Some h.
Proof.
  destruct 1 as [|m Hmiss Hf|Hmiss Hr]; intros Hc; [done | | done].
  simpl. rewrite lookup_insert_ne; [done |]. intros ->. congruence.
Qed.

Lemma serve_keeps cfg w c s v h :
  is_clear c = false ->
  cache s !! v = Some h ->
  cache (snd (serve cfg w c s)) !! v = Some h.
Proof.
  intros Hclear Hc.
  destruct c as [ov|u| |u|u|ov|request|request|u|ov| |];
    try discriminate; cbn [serve]; rewrite fmap_py_after.
  - eapply touched_keeps; [apply get_model_touched | done].
  - destruct (os_path_exists w (get_model_path cfg u)) eqn:Hex.
    + by rewrite set_active_version_present.
    + by rewrite set_active_version_absent.
  - done.
  - done.
  - done.
  - destruct (predict_with_validation_touched cfg w request s)
      as (s0 & Ht & [Hreg _]).
    rewrite Hreg. by eapply touched_keeps.
  - rewrite post_predict_after.
    destruct (predict_with_validation_touched cfg w request s)
      as (s0 & Ht & [Hreg _]).
    rewrite Hreg. by eapply touched_keeps.
  - pose proof (admin_set_active_version_cases cfg w u s) as Hcase.
    destruct (get_available_versions cfg w) as [e|available_versions].
    + by rewrite Hcase.
    + by destruct (bool_decide (u ∈ available_versions)); rewrite Hcase.
  - unfold Admin.get_health_status, bind, lift, Registry.get_active_version,
      gets; simpl.
    by destruct (get_available_versions cfg w).
  - destruct (startup_touched cfg w s) as [w' Ht].
    by eapply touched_keeps.
Qed.

(** X13. Nothing but an eviction removes or replaces a cached artifact:
    after any sequence of requests that holds no cache clear, a version
    that was cached is still cached, with the very same handle. *)
Theorem cache_entry_stable cfg reqs s v h :
  forallb (fun wc => negb (is_clear (snd wc))) reqs = true ->
  cache s !! v = Some h ->
  cache (snd (serve_all cfg reqs s)) !! v = Some h.
Proof.
  revert s. induction reqs as [|[w c] reqs IH]; intros s Hno Hc; [done |].
  simpl in Hno. apply andb_prop in Hno as [Hc1 Hrest].
  apply negb_true_iff in Hc1.
  pose proof (serve_keeps cfg w c s v h Hc1 Hc) as Hstep.
  simpl. destruct (serve cfg w c s) as [r s1]. simpl in Hstep.
  specialize (IH s1 Hrest Hstep).
  by destruct (serve_all cfg reqs s1).
Qed.

Lemma cache_entry_stable_witness :
  cache (snd (serve_all settings
                [(Demo.world, SetActiveVersion "v2");
                 (Demo.world, Predict (Demo.request [PyInt 2] None));
                 (canary_world, GetModel (Some "v3"));
                 (canary_world, Health)]
                (snd (serve settings Demo.world (GetModel (Some "v1"))
                        Demo.start)))) !! "v1"
  = Some {| oid := 0; obj := Demo.regressor Demo.one |}.
Proof.
  refine (cache_entry_stable settings _ _ "v1" _ _ _); reflexivity.
Defined.

(** ** app/predict.py: what a prediction records *)

Lemma touched_metrics cfg w e s s' :
  touched cfg w e s s' ->
  MODEL_PREDICTION_REQUESTS (metrics s') = MODEL_PREDICTION_REQUESTS (metrics s)
  /\ MODEL_PREDICTION_ERRORS (metrics s') = MODEL_PREDICTION_ERRORS (metrics s)
  /\ MODEL_INFERENCE_LATENCY (metrics s') = MODEL_INFERENCE_LATENCY (metrics s)
  /\ MODEL_VERSION_ACTIVE (metrics s') = MODEL_VERSION_ACTIVE (metrics s).
Proof. by destruct 1. Qed.

Lemma seen_by_predict_class e err :
  exn_type (seen_by_predict e err)
    = if exn_class_eqb (exn_type err) FileNotFoundError
      then ValueError else RuntimeError.
Proof.
  unfold seen_by_predict.
  by destruct (exn_class_eqb (exn_type err) FileNotFoundError).
Qed.

Lemma failed_prediction_classes cfg w request s err s' :
  make_prediction cfg w request s = (inl err, s') ->
  exn_type err = ValueError \/ exn_type err = RuntimeError.
Proof.
  intros Hm. pose proof (make_prediction_result cfg w request s) as Hr.
  rewrite Hm in Hr. simpl in Hr.
  assert (Hcls : forall e0,
            exn_type (seen_by_predict (effective (version request) s) e0)
              = ValueError
            \/ exn_type (seen_by_predict (effective (version request) s) e0)
               = RuntimeError).
  { intros e0. rewrite seen_by_predict_class.
    destruct (exn_class_eqb (exn_type e0) FileNotFoundError); auto. }
  destruct (fst (Registry.get_model cfg w
                   (Some (effective (version request) s)) s)) as [e0|h].
  - injection Hr as ->. apply Hcls.
  - unfold respond in Hr.
    destruct (predict (obj h) (features request)) as [e0|raw].
    + injection Hr as ->. apply Hcls.
    + destruct (normalize_prediction raw) as [e0|p].
      * injection Hr as ->. apply Hcls.
      * destruct (new_PredictionResponse p (effective (version request) s)
                    (float_mul (predict_seconds w) (float_of_int 1000)))
          as [e0|resp]; [| discriminate].
        injection Hr as ->. apply Hcls.
Qed.



(** X14. A prediction that succeeds counts one request under (version,
    "success") and observes one latency.  The response carries the
    measured seconds times 1000, and the histogram receives that product
    divided by 1000 again, both in floating point.  It counts no error and
    leaves the gauge alone. *)
Theorem successful_prediction_metrics cfg w request s resp s' :
  make_prediction cfg w request s = (inr resp, s') ->
  MODEL_PREDICTION_REQUESTS (metrics s')
    = inc (model_version resp, "success")
          (MODEL_PREDICTION_REQUESTS (metrics s))
  /\ latency_ms resp = float_mul (predict_seconds w) (float_of_int 1000)
  /\ MODEL_INFERENCE_LATENCY (metrics s')
     = (MODEL_INFERENCE_LATENCY (metrics s)
        ++ [(model_version resp,
             float_div (latency_ms resp) (float_of_int 1000))])%list
  /\ MODEL_PREDICTION_ERRORS (metrics s')
     = MODEL_PREDICTION_ERRORS (metrics s)
  /\ MODEL_VERSION_ACTIVE (metrics s') = MODEL_VERSION_ACTIVE (metrics s).
Proof.
  rewrite make_prediction_eq. cbv zeta.
  pose proof (get_model_touched cfg w
                (Some (effective (version request) s)) s) as Ht.
  apply touched_metrics in Ht as (Hreq & Herr & Hlat & Hgauge).
  destruct (Registry.get_model cfg w (Some (effective (version request) s)) s)
    as [[e|h] s0]; cbn [fst snd] in *; [discriminate |].
  destruct (predict (obj h) (features request)) as [e|raw]; [discriminate |].
  destruct (normalize_prediction raw) as [e|p]; [discriminate |].
  destruct (new_PredictionResponse p (effective (version request) s)
              (float_mul (predict_seconds w) (float_of_int 1000)))
    as [e|r] eqn:Hr; [discriminate |].
  apply new_PredictionResponse_ok in Hr as (_ & Hver & Hl).
  intros [= <- <-]. cbn [metrics snd record_prediction_request
    record_inference_latency update_metrics modify
    MODEL_PREDICTION_REQUESTS MODEL_INFERENCE_LATENCY MODEL_PREDICTION_ERRORS
    MODEL_VERSION_ACTIVE].
  by rewrite Hreq, Herr, Hlat, Hgauge, Hver, Hl.
Qed.

Lemma successful_prediction_metrics_witness :
  MODEL_PREDICTION_REQUESTS
    (metrics (snd (make_prediction settings Demo.world
                     (Demo.request [PyInt 1] None) Demo.start)))
  = inc (model_version
           {| prediction := Number (AsInt 1);
              model_version := "v1";
              latency_ms := float_mul Demo.one (float_of_int 1000) |},
         "success")
        (MODEL_PREDICTION_REQUESTS (metrics Demo.start)).
Proof.
  refine (proj1 (successful_prediction_metrics settings Demo.world
            (Demo.request [PyInt 1] None) Demo.start
            {| prediction := Number (AsInt 1);
               model_version := "v1";
               latency_ms := float_mul Demo.one (float_of_int 1000) |}
            (snd (make_prediction settings Demo.world
                    (Demo.request [PyInt 1] None) Demo.start)) _)).
  reflexivity.
Defined.

(** The seconds the histogram receives need not be the seconds that were
    measured: for the double next to 0.043, the product with 1000 divided
    by 1000 is the double below it. *)
Lemma observed_seconds_differ :
  float_div
    (float_mul (S754_finite false 6196953087261803 (-57)) (float_of_int 1000))
    (float_of_int 1000)
  = S754_finite false 6196953087261802 (-57).
Proof. reflexivity. Qed.

(** X15. [make_prediction] fails with [ValueError] or [RuntimeError] and
    nothing else.  A failure counts exactly one error, under the resolved
    version and a label that is "model_not_found" when the failure is the
    [ValueError].  When the loader, the model or the normalisation raised,
    no request is counted and no latency observed.  When the model
    answered and the response schema refused the answer, the request has
    already been counted as a success and its latency observed: the same
    prediction is then counted once as a success and once as an error
    ("ValidationError"), and fails with [RuntimeError]. *)
Theorem failed_prediction_metrics cfg w request s err s' :
  make_prediction cfg w request s = (inl err, s') ->
  (exn_type err = ValueError \/ exn_type err = RuntimeError)
  /\ (exists label,
        MODEL_PREDICTION_ERRORS (metrics s')
          = inc (effective (version request) s, label)
                (MODEL_PREDICTION_ERRORS (metrics s))
        /\ (exn_type err = ValueError -> label = "model_not_found"))
  /\ (MODEL_PREDICTION_REQUESTS (metrics s')
        = MODEL_PREDICTION_REQUESTS (metrics s)
      /\ MODEL_INFERENCE_LATENCY (metrics s')
         = MODEL_INFERENCE_LATENCY (metrics s)
      \/ exn_type err = RuntimeError
         /\ MODEL_PREDICTION_REQUESTS (metrics s')
            = inc (effective (version request) s, "success")
                  (MODEL_PREDICTION_REQUESTS (metrics s))
         /\ MODEL_INFERENCE_LATENCY (metrics s')
            = (MODEL_INFERENCE_LATENCY (metrics s)
               ++ [(effective (version request) s,
                    float_div
                      (float_mul (predict_seconds w) (float_of_int 1000))
                      (float_of_int 1000))])%list)
  /\ (forall h s0 raw p,
        Registry.get_model cfg w (Some (effective (version request) s)) s
          = (inr h, s0) ->
        predict (obj h) (features request) = inr raw ->
        normalize_prediction raw = inr p ->
        exists errors,
          validate_prediction p = inl errors
          /\ err = Exn RuntimeError
                     ("Prediction failed: "
                      ++ exn_str (ValidationError errors))
          /\ MODEL_PREDICTION_REQUESTS (metrics s')
             = inc (effective (version request) s, "success")
                   (MODEL_PREDICTION_REQUESTS (metrics s))
          /\ MODEL_PREDICTION_ERRORS (metrics s')
             = inc (effective (version request) s, "ValidationError")
                   (MODEL_PREDICTION_ERRORS (metrics s))).
Proof.
  intros Hm. split; [by eapply failed_prediction_classes |].
  revert Hm. rewrite make_prediction_eq. cbv zeta.
  pose proof (get_model_touched cfg w
                (Some (effective (version request) s)) s) as Ht.
  apply touched_metrics in Ht as (Hreq & Herr & Hlat & Hgauge).
  assert (Hlabel : forall e0,
            exn_type (seen_by_predict (effective (version request) s) e0)
              = ValueError ->
            error_label e0 = "model_not_found").
  { intros e0. rewrite seen_by_predict_class. unfold error_label.
    by destruct (exn_class_eqb (exn_type e0) FileNotFoundError). }
  destruct (Registry.get_model cfg w (Some (effective (version request) s)) s)
    as [[e|h] s0] eqn:Hg; cbn [fst snd] in *.
  { intros [= <- <-]. cbn. rewrite Hreq, Herr, Hlat.
    split; [eexists; split; [reflexivity | apply Hlabel] |].
    split; [by left | discriminate]. }
  destruct (predict (obj h) (features request)) as [e|raw] eqn:Hp.
  { intros [= <- <-]. cbn. rewrite Hreq, Herr, Hlat.
    split; [eexists; split; [reflexivity | apply Hlabel] |].
    split; [by left |]. intros h' s0' raw' p' [= <- <-] Hp'. congruence. }
  destruct (normalize_prediction raw) as [e|p] eqn:Hn.
  { intros [= <- <-]. cbn. rewrite Hreq, Herr, Hlat.
    split; [eexists; split; [reflexivity | apply Hlabel] |].
    split; [by left |].
    intros h' s0' raw' p' [= <- <-] Hp' Hn'. congruence. }
  unfold new_PredictionResponse.
  destruct (validate_prediction p) as [errors|value] eqn:Hval; [| discriminate].
  intros [= <- <-]. cbn. rewrite Hreq, Herr, Hlat.
  split; [eexists; split; [reflexivity | discriminate] |].
  split; [by right |].
  intros h' s0' raw' p' [= <- <-] Hp' Hn'.
  assert (p' = p) as -> by congruence. by exists errors.
Qed.

Lemma failed_prediction_metrics_witness :
  exists errors,
    validate_prediction (PScalar (PyStr "cat")) = inl errors
    /\ label_failure
       = Exn RuntimeError
           ("Prediction failed: " ++ exn_str (ValidationError errors))
    /\ MODEL_PREDICTION_REQUESTS
         (metrics (snd (make_prediction settings (world_of label_model)
                          (Demo.request [PyInt 1] None) Demo.start)))
       = inc ("v1", "success") (MODEL_PREDICTION_REQUESTS (metrics Demo.start))
    /\ MODEL_PREDICTION_ERRORS
         (metrics (snd (make_prediction settings (world_of label_model)
                          (Demo.request [PyInt 1] None) Demo.start)))
       = inc ("v1", "ValidationError")
             (MODEL_PREDICTION_ERRORS (metrics Demo.start)).
Proof.
  refine (proj2 (proj2 (proj2
            (failed_prediction_metrics settings (world_of label_model)
               (Demo.request [PyInt 1] None) Demo.start label_failure
               (snd (make_prediction settings (world_of label_model)
                       (Demo.request [PyInt 1] None) Demo.start)) _)))
            {| oid := 0; obj := label_model |}
            (snd (Registry.get_model settings (world_of label_model)
                    (Some "v1") Demo.start))
            (NdArray (PList [PScalar (PyStr "cat")]))
            (PScalar (PyStr "cat")) _ _ _); reflexivity.
Defined.

(** ** app/predict.py and app/main.py: validation and the handler *)

Lemma feature_rejected_raises x e :
  feature_rejected x = inl e -> exn_type e = TypeError.
Proof.
  unfold feature_rejected, np_isnan, np_isinf, ufunc_not_supported.
  destruct x as [z|[sg|sg| |sg m ex]|b|str|]; simpl; try discriminate.
  destruct (fits_numpy_integer z); [discriminate |]. by intros [= <-].
Qed.

Lemma validate_features_raises fs e :
  validate_features fs = inl e -> exn_type e = TypeError.
Proof.
  assert (Hloop : forall l, validate_loop l = inl e -> exn_type e = TypeError).
  { induction l as [|x l IH]; [discriminate |]. simpl.
    destruct (feature_rejected x) as [e0|[|]] eqn:Hx.
    - intros [= <-]. by eapply feature_rejected_raises.
    - discriminate.
    - done. }
  destruct fs as [|x fs]; [discriminate |]. apply Hloop.
Qed.

(** X16. The [/predict] handler answers 200, 400 or 500 unless validation
    itself raised: an exception leaves the handler only when
    [validate_features] raised it, it is then a [TypeError], and the
    process state is untouched.  Whatever the loader or the model raise
    ends up as a 400 or a 500. *)
Theorem handler_escapes_only_from_validation cfg w request s :
  match fst (Main.predict cfg w request s) with
  | inl e =>
      validate_features (features request) = inl e
      /\ exn_type e = TypeError
      /\ snd (Main.predict cfg w request s) = s
  | inr (Main.OK body) =>
      validate_features (features request) = inr true
      /\ fst (make_prediction cfg w request s) = inr body
  | inr (Main.HTTPException status_code detail) =>
      (status_code = 400 \/ status_code = 500)
      /\ (validate_features (features request) = inr false ->
          status_code = 400 /\ detail = "Invalid features provided"
          /\ snd (Main.predict cfg w request s) = s)
  end.
Proof.
  rewrite post_predict_result, post_predict_after.
  destruct (validate_features (features request)) as [e|[|]] eqn:Hv.
  - rewrite (predict_with_validation_raised _ _ _ e) by done. simpl.
    pose proof (validate_features_raises _ _ Hv) as Hty.
    destruct e as [cls msg]. simpl in Hty. subst cls. by repeat split.
  - rewrite predict_with_validation_accepted by done.
    destruct (make_prediction cfg w request s) as [[err|body] s'] eqn:Hm;
      simpl; [| done].
    destruct (failed_prediction_classes cfg w request s err s' Hm)
      as [-> | ->]; simpl; split; auto; discriminate.
  - rewrite predict_with_validation_rejected by done. simpl.
    split; auto.
Qed.

(** X17. Validation stops at the first entry it rejects: when the entries
    before it pass, a NaN, an infinity or a non-number makes
    [validate_features] return [False] whatever follows, even an integer
    that numpy cannot classify.  Conversely, when such an integer comes
    first, the call raises whatever follows. *)
Theorem validation_stops_at_first_bad_entry before bad rest :
  forallb passes before = true ->
  (finite_number bad = false -> numpy_classifies bad = true ->
   validate_features (before ++ bad :: rest) = inr false)
  /\ (numpy_classifies bad = false ->
      exists e,
        validate_features (before ++ bad :: rest) = inl e
        /\ exn_type e = TypeError).
Proof.
  intros Hbefore.
  assert (Hloop : forall k : exn + bool,
            validate_loop (bad :: rest) = k ->
            validate_loop (before ++ bad :: rest) = k).
  { intros k Hk. induction before as [|x before IH]; [done |].
    simpl in Hbefore. apply andb_prop in Hbefore as [Hx Hb].
    unfold passes in Hx. apply andb_prop in Hx as [Hcl Hfin].
    simpl. rewrite feature_rejected_spec by done. rewrite Hfin. simpl.
    by apply IH. }
  assert (Hsame : validate_features (before ++ bad :: rest)
                  = validate_loop (before ++ bad :: rest)).
  { unfold validate_features. by destruct before. }
  rewrite Hsame. split.
  - intros Hfin Hcl. apply Hloop. simpl.
    rewrite feature_rejected_spec by done. by rewrite Hfin.
  - intros Hcl. destruct bad as [z|f|b|str|]; try discriminate.
    simpl in Hcl. exists (ufunc_not_supported "isnan"). split; [| done].
    apply Hloop. simpl. unfold feature_rejected, np_isnan. simpl.
    by rewrite Hcl.
Qed.

Lemma validation_stops_at_first_bad_entry_witness :
  validate_features ([PyInt 1; PyFloat Demo.half]
                     ++ PyStr "x" :: [PyInt (10 ^ 30)]) = inr false.
Proof.
  refine (proj1 (validation_stops_at_first_bad_entry
                   [PyInt 1; PyFloat Demo.half] (PyStr "x")
                   [PyInt (10 ^ 30)] _) _ _); reflexivity.
Defined.




(** ** app/main.py: startup *)

(** X19. The startup hook first makes sure the models directory is there:
    when [os.makedirs] raises, the hook raises the same and nothing else
    happens; it does raise, [FileExistsError], when the path is a regular
    file, and it leaves the world alone when the directory exists.  Then
    the hook tries to load the active (default) version: with no pickle for
    it the hook returns normally and changes nothing; with a readable
    pickle the version is cached when the hook returns; with a pickle that
    cannot be loaded the hook raises [RuntimeError], so only the missing
    file is tolerated. *)
Theorem startup_loads_default cfg w s :
  cache s !! active s = None ->
  (forall e,
     os_makedirs w (models_dir cfg) = inl e ->
     Main.startup_event cfg w s = (inl e, s))
  /\ (files w (models_dir cfg) <> None -> dirs w (models_dir cfg) = None ->
      exists e,
        Main.startup_event cfg w s = (inl e, s)
        /\ exn_type e = OtherError "FileExistsError")
  /\ (forall items,
        dirs w (models_dir cfg) = Some items ->
        os_makedirs w (models_dir cfg) = inr w)
  /\ (forall w',
        os_makedirs w (models_dir cfg) = inr w' ->
        (os_path_exists w' (get_model_path cfg (active s)) = false ->
         Main.startup_event cfg w s = (inr tt, s))
        /\ (forall m,
              files w' (get_model_path cfg (active s)) = Some (Artifact m) ->
              Main.startup_event cfg w s
                = (inr tt, loaded cfg w' (active s) m s))
        /\ (os_path_exists w' (get_model_path cfg (active s)) = true ->
            readable w' (get_model_path cfg (active s)) = false ->
            exists err,
              Main.startup_event cfg w s
                = (inl err, attempted cfg (active s) s)
              /\ exn_type err = RuntimeError)).
Proof.
  intros Hc. split; [| split; [| split]].
  - intros e He. unfold Main.startup_event, bind, lift. by rewrite He.
  - intros Hf Hd.
    exists (Exn (OtherError "FileExistsError")
              (strerror "[Errno 17] File exists" (models_dir cfg))).
    split; [| reflexivity].
    unfold Main.startup_event, bind, lift, os_makedirs. rewrite Hd.
    by destruct (files w (models_dir cfg)).
  - intros items Hd. unfold os_makedirs. by rewrite Hd.
  - intros w' Hw'. unfold Main.startup_event, bind, lift. rewrite Hw'.
    unfold try_except, bind, ret, raise. split; [| split].
    + intros Hex. by rewrite (get_model_miss_absent cfg w' None s).
    + intros m Hf. by rewrite (get_model_miss_ok cfg w' None m s).
    + intros Hex Hr.
      rewrite (get_model_miss_unreadable cfg w' None s) by done.
      simpl. eexists. split; [reflexivity | done].
Qed.

Lemma startup_loads_default_witness :
  Main.startup_event settings Demo.world Demo.start
  = (inr tt,
     loaded settings Demo.world (active Demo.start) (Demo.regressor Demo.one)
       Demo.start).
Proof.
  refine (proj1 (proj2 (proj2 (proj2 (proj2
            (startup_loads_default settings Demo.world Demo.start _)))
            Demo.world _)) (Demo.regressor Demo.one) _); reflexivity.
Defined.

(** ** app/admin.py: health and model information *)

(** X20. The health check reads and changes nothing.  Its status is
    "no_models" exactly when the catalogue is empty and "healthy" exactly
    when the catalogue lists the active version, whether or not that
    version is loaded; [models_loaded] counts the listed versions that are
    cached, so it never exceeds the length of the catalogue. *)
Theorem health_status_reading cfg w s r s' :
  Admin.get_health_status cfg w s = (inr r, s') ->
  s' = s
  /\ Admin.health_active_version r = active s
  /\ get_available_versions cfg w = inr (Admin.available_versions r)
  /\ (Admin.status r = "no_models" <-> Admin.available_versions r = [])
  /\ (Admin.status r = "healthy" <-> active s ∈ Admin.available_versions r)
  /\ Admin.models_loaded r
     = length (filter (fun v => is_Some (cache s !! v))
                      (Admin.available_versions r))
  /\ Admin.models_loaded r <= length (Admin.available_versions r).
Proof.
  unfold Admin.get_health_status, bind, lift, Registry.get_active_version,
    gets, ret.
  destruct (get_available_versions cfg w) as [e|l]; simpl; [discriminate |].
  intros [= <- <-]. simpl. repeat split; try done.
  - destruct l; [done |].
    by destruct (bool_decide (active s ∈ s0 :: l)).
  - by intros ->.
  - destruct l as [|x l]; [discriminate |].
    destruct (bool_decide (active s ∈ x :: l)) eqn:Hin; [| discriminate].
    by apply bool_decide_eq_true in Hin.
  - intros Hin. destruct l as [|x l]; [by apply elem_of_nil in Hin |].
    by rewrite bool_decide_eq_true_2.
  - apply length_filter.
Qed.

Lemma health_status_reading_witness :
  Admin.status
    {| Admin.status := "healthy";
       Admin.health_active_version := "v1";
       Admin.available_versions := ["v1"; "v2"; "v3"];
       Admin.models_loaded := 0 |} = "healthy"
  <-> active Demo.start
      ∈ Admin.available_versions
          {| Admin.status := "healthy";
             Admin.health_active_version := "v1";
             Admin.available_versions := ["v1"; "v2"; "v3"];
             Admin.models_loaded := 0 |}.
Proof.
  refine (proj1 (proj2 (proj2 (proj2 (proj2
            (health_status_reading settings Demo.world Demo.start
               {| Admin.status := "healthy";
                  Admin.health_active_version := "v1";
                  Admin.available_versions := ["v1"; "v2"; "v3"];
                  Admin.models_loaded := 0 |}
               Demo.start _)))))).
  reflexivity.
Defined.

Lemma get_model_info_eq cfg w os_stat v s :
  Info.get_model_info cfg w os_stat v s
  = (inr {| Info.version := v;
            Info.exists_ := os_path_exists w (get_model_path cfg v);
            Info.loaded := bool_decide (is_Some (cache s !! v));
            Info.load_time := durations s !! v;
            Info.active_ := String.eqb v (active s);
            Info.file_size :=
              if os_path_exists w (get_model_path cfg v)
              then Some (st_size (os_stat (get_model_path cfg v))) else None;
            Info.modified_time :=
              if os_path_exists w (get_model_path cfg v)
              then Some (st_mtime (os_stat (get_model_path cfg v)))
              else None |}, s)
  /\ Info.admin_get_model_info cfg w os_stat v s
     = Info.get_model_info cfg w os_stat v s.
Proof. done. Qed.

(** X21. [get_model_info] answers for any name, known or not, and changes
    nothing.  In every state the process can reach its entries agree with
    each other: [loaded] is true exactly when there is a [load_time],
    [file_size] and [modified_time] are present exactly when [exists] is
    true, and [active] is true exactly for the active version.  The admin
    operation returns the same seven entries. *)
Theorem model_info_consistent cfg w os_stat v s :
  reachable cfg s ->
  exists info,
    Info.get_model_info cfg w os_stat v s = (inr info, s)
    /\ Info.admin_get_model_info cfg w os_stat v s = (inr info, s)
    /\ Info.version info = v
    /\ Info.exists_ info = os_path_exists w (get_model_path cfg v)
    /\ (Info.loaded info = true <-> is_Some (Info.load_time info))
    /\ (Info.loaded info = true <-> is_Some (cache s !! v))
    /\ (Info.exists_ info = true <-> is_Some (Info.file_size info))
    /\ (Info.exists_ info = true <-> is_Some (Info.modified_time info))
    /\ (Info.active_ info = true <-> v = active s).
Proof.
  intros Hreach.
  destruct (reachable_consistent cfg s Hreach) as [Hkeys _].
  destruct (get_model_info_eq cfg w os_stat v s) as [Hinfo Hadmin].
  eexists. split; [exact Hinfo |]. split; [by rewrite Hadmin |].
  simpl. split; [done |]. split; [done |].
  assert (Hstat : forall A (x : A),
            os_path_exists w (get_model_path cfg v) = true
            <-> is_Some (if os_path_exists w (get_model_path cfg v)
                         then Some x else None)).
  { intros A x. destruct (os_path_exists w (get_model_path cfg v)).
    - split; [by eexists | done].
    - split; [done | by intros [? ?]]. }
  split; [| split; [| split; [| split]]].
  - rewrite bool_decide_eq_true, <- !not_eq_None_Some. by rewrite (Hkeys v).
  - apply bool_decide_eq_true.
  - apply Hstat.
  - apply Hstat.
  - apply String.eqb_eq.
Qed.

Lemma model_info_consistent_witness :
  exists info,
    Info.get_model_info settings Demo.world
      (fun _ => {| st_size := 10; st_mtime := Demo.three |}) "v9" Demo.start
    = (inr info, Demo.start)
    /\ Info.admin_get_model_info settings Demo.world
         (fun _ => {| st_size := 10; st_mtime := Demo.three |}) "v9" Demo.start
       = (inr info, Demo.start)
    /\ Info.version info = "v9"
    /\ Info.exists_ info
       = os_path_exists Demo.world (get_model_path settings "v9")
    /\ (Info.loaded info = true <-> is_Some (Info.load_time info))
    /\ (Info.loaded info = true <-> is_Some (cache Demo.start !! "v9"))
    /\ (Info.exists_ info = true <-> is_Some (Info.file_size info))
    /\ (Info.exists_ info = true <-> is_Some (Info.modified_time info))
    /\ (Info.active_ info = true <-> "v9" = active Demo.start).
Proof.
  apply (model_info_consistent settings Demo.world
           (fun _ => {| st_size := 10; st_mtime := Demo.three |}) "v9" Demo.start).
  by exists [].
Defined.

Lemma collect_spec cfg w os_stat versions s :
  exists infos,
    Info.collect cfg w os_stat versions s = (inr infos, s)
    /\ Info.version <$> infos = versions
    /\ Forall (fun info =>
                 Info.exists_ info
                 = os_path_exists w (get_model_path cfg (Info.version info))
                 /\ (Info.exists_ info = true ->
                     is_Some (Info.file_size info)
                     /\ is_Some (Info.modified_time info)))
              infos.
Proof.
  induction versions as [|v versions (infos & Hrun & Hnames & Hex)].
  - exists []. by repeat split.
  - destruct (get_model_info_eq cfg w os_stat v s) as [Hinfo Hadmin].
    eexists (_ :: infos). split; [| split].
    + simpl. unfold bind. rewrite Hadmin, Hinfo, Hrun. reflexivity.
    + rewrite fmap_cons, Hnames. reflexivity.
    + constructor; [| done]. simpl. split; [done |].
      by intros ->.
Qed.

(** X22. [get_all_models_info] returns one entry per catalogue version, in
    the catalogue's (ascending) order, each with [exists] true and with its
    file size and modification time present; it changes nothing.  A
    version whose pickle is not in the store is not listed, cached or
    not. *)
Theorem all_models_info_follows_catalogue cfg w os_stat s available_versions :
  get_available_versions cfg w = inr available_versions ->
  exists infos,
    Info.get_all_models_info cfg w os_stat s = (inr infos, s)
    /\ Info.version <$> infos = available_versions
    /\ Forall (fun info =>
                 Info.exists_ info = true
                 /\ is_Some (Info.file_size info)
                 /\ is_Some (Info.modified_time info))
              infos
    /\ (forall v,
          os_path_exists w (get_model_path cfg v) = false ->
          v ∉ Info.version <$> infos).
Proof.
  intros Ha.
  destruct (collect_spec cfg w os_stat available_versions s)
    as (infos & Hrun & Hnames & Hex).
  exists infos. unfold Info.get_all_models_info, bind, lift.
  rewrite Ha. simpl. split; [done |]. split; [done |].
  assert (Hall : forall v, v ∈ available_versions ->
                   os_path_exists w (get_model_path cfg v) = true).
  { intros v Hin. by eapply available_exists. }
  split.
  - rewrite Forall_forall in Hex. apply Forall_forall. intros info Hin.
    destruct (Hex info Hin) as [Hpath Hstat].
    assert (Hthere : Info.exists_ info = true).
    { rewrite Hpath. apply Hall. rewrite <- Hnames.
      by apply list_elem_of_fmap_2. }
    split; [done |]. by apply Hstat.
  - intros v Hgone Hin. rewrite Hnames in Hin.
    specialize (Hall v Hin). congruence.
Qed.

Lemma all_models_info_follows_catalogue_witness :
  exists infos,
    Info.get_all_models_info settings Demo.world
      (fun _ => {| st_size := 10; st_mtime := Demo.three |}) Demo.start
    = (inr infos, Demo.start)
    /\ Info.version <$> infos = ["v1"; "v2"; "v3"]
    /\ Forall (fun info =>
                 Info.exists_ info = true
                 /\ is_Some (Info.file_size info)
                 /\ is_Some (Info.modified_time info))
              infos
    /\ (forall v,
          os_path_exists Demo.world (get_model_path settings v) = false ->
          v ∉ Info.version <$> infos).
Proof.
  apply (all_models_info_follows_catalogue settings Demo.world
           (fun _ => {| st_size := 10; st_mtime := Demo.three |}) Demo.start
           ["v1"; "v2"; "v3"]).
  reflexivity.
Defined.
